(** * Tabasaran-Russian translator: the Vue frontend, embedded and verified

    The development follows the frontend sources one module per file:
    - [types]            src/types/index.ts  (the JSON contract with the backend)
    - [api]              src/api/translator.ts
    - [useTranslator]    src/composables/useTranslator.ts
    - [TranslatorResult] src/components/TranslatorResult.vue
    - [WordCard]         src/components/WordCard.vue
    - [TranslatorInput]  src/components/TranslatorInput.vue
    - [App]              src/App.vue

    JavaScript values are modelled as the language has them: a [number] is an
    IEEE 754 binary64 value (the Standard Library's executable [spec_float]),
    a string is a sequence of UTF-16 code units, [null]/[undefined] is
    [None], an object literal sent as JSON is a finite map from keys to JSON
    values.  Reactive refs are fields of an explicit state record and every
    function of a composable or component is a state transformer. *)

From Stdlib Require Import List Bool ZArith NArith Lia String Ascii.
From Stdlib Require Import Floats.
From stdpp Require Import gmap strings.
Import ListNotations.

Set Default Proof Using "Type".
Set Warnings "-inexact-float".
Local Open Scope N_scope.

(** ** JavaScript strings *)

(** A JS string is a sequence of 16-bit code units. *)
Definition jsstring := list N.

Fixpoint bytes_of_string (s : string) : list N :=
  match s with
  | EmptyString => []
  | String a r => N_of_ascii a :: bytes_of_string r
  end.

(** String literals of the sources are UTF-8 text; [utf16_of_utf8] turns the
    bytes of such a literal into the code units the JS engine holds
    (one unit per code point of the basic plane, a surrogate pair above). *)
Fixpoint utf16_of_utf8 (bs : list N) : jsstring :=
  match bs with
  | [] => []
  | b0 :: r0 =>
    if b0 <? 0x80 then b0 :: utf16_of_utf8 r0
    else match r0 with
    | [] => [0xFFFD]
    | b1 :: r1 =>
      if b0 <? 0xE0 then
        N.lor (N.shiftl (N.land b0 0x1F) 6) (N.land b1 0x3F) :: utf16_of_utf8 r1
      else match r1 with
      | [] => [0xFFFD]
      | b2 :: r2 =>
        if b0 <? 0xF0 then
          N.lor (N.shiftl (N.land b0 0x0F) 12)
                (N.lor (N.shiftl (N.land b1 0x3F) 6) (N.land b2 0x3F))
            :: utf16_of_utf8 r2
        else match r2 with
        | [] => [0xFFFD]
        | b3 :: r3 =>
          let cp := N.lor (N.shiftl (N.land b0 0x07) 18)
                   (N.lor (N.shiftl (N.land b1 0x3F) 12)
                   (N.lor (N.shiftl (N.land b2 0x3F) 6) (N.land b3 0x3F))) in
          let v := cp - 0x10000 in
          (0xD800 + N.shiftr v 10) :: (0xDC00 + N.land v 0x3FF)
            :: utf16_of_utf8 r3
        end
      end
    end
  end.

(** [js "..."] is the JS string written ["..."] (or ['...']) in the sources. *)
Definition js (s : string) : jsstring := utf16_of_utf8 (bytes_of_string s).

(** ECMAScript WhiteSpace and LineTerminator code points, the characters
    [String.prototype.trim] strips. *)
Definition is_whitespace (c : N) : bool :=
  (c =? 0x0009) || (c =? 0x000A) || (c =? 0x000B) || (c =? 0x000C) ||
  (c =? 0x000D) || (c =? 0x0020) || (c =? 0x00A0) || (c =? 0x1680) ||
  ((0x2000 <=? c) && (c <=? 0x200A)) ||
  (c =? 0x2028) || (c =? 0x2029) || (c =? 0x202F) || (c =? 0x205F) ||
  (c =? 0x3000) || (c =? 0xFEFF).

Fixpoint trimStart (s : jsstring) : jsstring :=
  match s with
  | [] => []
  | c :: r => if is_whitespace c then trimStart r else s
  end.

Definition trimEnd (s : jsstring) : jsstring := rev (trimStart (rev s)).

(** [s.trim()] *)
Definition trim (s : jsstring) : jsstring := trimEnd (trimStart s).

(** [arr.join(sep)] on an array of strings. *)
Fixpoint join (sep : jsstring) (l : list jsstring) : jsstring :=
  match l with
  | [] => []
  | [x] => x
  | x :: r => x ++ sep ++ join sep r
  end.

(** Truthiness ([ToBoolean]) of a string, and of a [string | null | undefined]. *)
Definition truthy_string (s : jsstring) : bool :=
  match s with [] => false | _ :: _ => true end.

Definition truthy (v : option jsstring) : bool :=
  match v with None => false | Some s => truthy_string s end.

(** [a || b] where [b] is a string and [a] a string, [null] or [undefined]. *)
Definition or_else (a : option jsstring) (b : jsstring) : jsstring :=
  match a with
  | Some s => if truthy_string s then s else b
  | None => b
  end.

(** [a || b] with both sides possibly [null]/[undefined]. *)
Definition or_opt (a b : option jsstring) : option jsstring :=
  if truthy a then a else b.

(** ** JavaScript numbers *)

(** A JS number is a binary64 float. *)
Definition number := spec_float.

(** The value of a numeric literal of the sources. *)
Definition num_0_8 : number := Eval vm_compute in Prim2SF 0.8%float.
Definition num_0_5 : number := Eval vm_compute in Prim2SF 0.5%float.
Definition num_100 : number := Eval vm_compute in Prim2SF 100%float.

Definition is_NaN (x : number) : bool :=
  match x with S754_nan => true | _ => false end.

(** [a < b]: IsLessThan, with an undefined comparison (NaN) giving [false]. *)
Definition num_lt (a b : number) : bool :=
  match SFcompare a b with Some Lt => true | _ => false end.

(** [a >= b]: IsLessThan(a, b) is computed; [true] or undefined give [false]. *)
Definition num_ge (a b : number) : bool :=
  match SFcompare a b with
  | Some Lt => false
  | None => false
  | Some _ => true
  end.

(** The numbers a JS engine can hold: the canonical binary64 encodings. *)
Definition is_binary64 (x : number) : bool := valid_binary x.

(** The exact order between the value of [x] and the fraction [p/q]
    (for [q > 0]); infinities compare as such, NaN does not compare.
    A finite [x] is [n * 2^e], and [n * 2^e ? p/q] is decided on integers
    after clearing the denominator and the negative exponent. *)
Definition compare_with_ratio (x : number) (p q : Z) : option comparison :=
  match x with
  | S754_nan => None
  | S754_infinity s => Some (if s then Lt else Gt)
  | S754_zero _ => Some (0 ?= p)%Z
  | S754_finite s m e =>
      let n := if s then Z.neg m else Z.pos m in
      Some (q * n * 2 ^ Z.max e 0 ?= p * 2 ^ Z.max (- e) 0)%Z
  end.

(** [value x >= p/q] and [value x < p/q], as exact statements. *)
Definition value_ge (x : number) (p q : Z) : bool :=
  match compare_with_ratio x p q with
  | Some Lt => false
  | None => false
  | Some _ => true
  end.

Definition value_lt (x : number) (p q : Z) : bool :=
  match compare_with_ratio x p q with Some Lt => true | _ => false end.

(** [a * b] in binary64, round to nearest even. *)
Definition num_mul (a b : number) : number := SFmul prec emax a b.


(** ** URI encoding *)

(** The characters [encodeURIComponent] leaves as they are: ASCII letters,
    digits and [- _ . ! ~ * ' ( )]. *)
Definition is_uri_unreserved (c : N) : bool :=
  ((0x41 <=? c) && (c <=? 0x5A)) || ((0x61 <=? c) && (c <=? 0x7A)) ||
  ((0x30 <=? c) && (c <=? 0x39)) ||
  (c =? 0x2D) || (c =? 0x5F) || (c =? 0x2E) || (c =? 0x21) || (c =? 0x7E) ||
  (c =? 0x2A) || (c =? 0x27) || (c =? 0x28) || (c =? 0x29).

Definition is_lead_surrogate (c : N) : bool := (0xD800 <=? c) && (c <=? 0xDBFF).
Definition is_trail_surrogate (c : N) : bool := (0xDC00 <=? c) && (c <=? 0xDFFF).

(** The octets of the UTF-8 encoding of a code point. *)
Definition utf8_of_code_point (cp : N) : list N :=
  if cp <? 0x80 then [cp]
  else if cp <? 0x800 then [0xC0 + cp / 0x40; 0x80 + cp mod 0x40]
  else if cp <? 0x10000 then
    [0xE0 + cp / 0x1000; 0x80 + (cp / 0x40) mod 0x40; 0x80 + cp mod 0x40]
  else
    [0xF0 + cp / 0x40000; 0x80 + (cp / 0x1000) mod 0x40;
     0x80 + (cp / 0x40) mod 0x40; 0x80 + cp mod 0x40].

(** An upper-case hexadecimal digit, as a code unit. *)
Definition hex_digit (n : N) : N :=
  if n <? 10 then 0x30 + n else 0x41 + (n - 10).

(** ["%XY"] for one octet. *)
Definition percent_encode (octet : N) : jsstring :=
  [0x25; hex_digit (octet / 16); hex_digit (octet mod 16)].

(** [encodeURIComponent(s)]: [None] is the URIError thrown on a surrogate
    that has no partner. *)
Fixpoint encodeURIComponent (s : jsstring) : option jsstring :=
  match s with
  | [] => Some []
  | c :: r =>
    if is_uri_unreserved c then
      option_map (cons c) (encodeURIComponent r)
    else if is_trail_surrogate c then None
    else if is_lead_surrogate c then
      match r with
      | [] => None
      | d :: r' =>
        if is_trail_surrogate d then
          let cp := 0x10000 + (c - 0xD800) * 0x400 + (d - 0xDC00) in
          option_map (app (flat_map percent_encode (utf8_of_code_point cp)))
                     (encodeURIComponent r')
        else None
      end
    else
      option_map (app (flat_map percent_encode (utf8_of_code_point c)))
                 (encodeURIComponent r)
  end.


(** ** src/types/index.ts *)

Module types.

(** [type TranslationDirection = 'tab-rus' | 'rus-tab'] *)
Inductive TranslationDirection := tab_rus | rus_tab.

(** The string a direction is at run time. *)
Definition direction_string (d : TranslationDirection) : jsstring :=
  match d with
  | tab_rus => js "tab-rus"
  | rus_tab => js "rus-tab"
  end.

Record WordTranslation := {
  word : jsstring;
  translations : list jsstring;
  part_of_speech : option jsstring;
  confidence : number;
  is_unknown : bool
}.

Record TranslateResponse := {
  original_text : jsstring;
  translated_text : jsstring;
  words : list WordTranslation;
  direction : TranslationDirection;
  llm_used : bool
}.

End types.

(** The default [limit] of [getSuggestions]. *)
Definition num_10 : number := Eval vm_compute in Prim2SF 10%float.

(** The dictionary interfaces of src/types/index.ts; each is a module of
    its own, their field names overlapping. *)

Module DictionaryEntry.

(** An element of [examples]. *)
Record example := {
  tabasaran : jsstring;
  russian : jsstring;
  source : option jsstring
}.

Record t := {
  id : number;
  word : jsstring;
  word_normalized : option jsstring;
  root : option jsstring;
  part_of_speech : option jsstring;
  translations : list jsstring;
  examples : list example;
  is_verified : bool
}.

End DictionaryEntry.

Module LookupResponse.

Record t := {
  query : jsstring;
  results : list DictionaryEntry.t;
  total : number
}.

End LookupResponse.

Module SuggestResponse.

Record t := {
  query : jsstring;
  suggestions : list jsstring
}.

End SuggestResponse.

(** ** src/api/translator.ts *)

Module api.
Import types.

(** The JSON values the client puts in a request body. *)
Inductive json :=
| JString (s : jsstring)
| JBool (b : bool).

Inductive http_method := GET | POST.

Record http_request := {
  http_method_of : http_method;
  http_url : jsstring;
  http_body : gmap string json
}.

(** What axios rejects with, as far as the caller reads it:
    [e.response?.data?.detail] and [e.message]. *)
Record request_error := {
  response_data_detail : option jsstring;
  message : option jsstring
}.

(** How an awaited request settles. *)
Inductive settled (A : Type) :=
| Fulfilled (data : A)
| Rejected (e : request_error).
Arguments Fulfilled {A} data.
Arguments Rejected {A} e.

(** The backend seen from the client: each request settles one way. *)
Definition network := http_request -> settled TranslateResponse.

(** [axios.create({ baseURL: '/api', ... })] *)
Definition baseURL : jsstring := js "/api".

(** [api.post(url, data)] *)
Definition post (url : jsstring) (data : gmap string json) : http_request :=
  {| http_method_of := POST; http_url := baseURL ++ url; http_body := data |}.

(** The request [translate] builds; an omitted argument is [None] and
    takes the default of the parameter list. *)
Definition translate_request (text : jsstring)
    (direction : option TranslationDirection) (useLlm : option bool)
    : http_request :=
  let direction := default tab_rus direction in
  let useLlm := default true useLlm in
  post (js "/translate")
    (<["text" := JString text]>
     (<["direction" := JString (direction_string direction)]>
      (<["use_llm" := JBool useLlm]> ∅))).

(** [translate(text, direction, useLlm)]: the awaited outcome
    ([response.data] or the rejection) and the requests issued. *)
Definition translate (net : network) (text : jsstring)
    (direction : option TranslationDirection) (useLlm : option bool)
    : settled TranslateResponse * list http_request :=
  let rq := translate_request text direction useLlm in
  (net rq, [rq]).

(** The values of the query parameters the client passes. *)
Inductive param :=
| PString (s : jsstring)
| PBool (b : bool)
| PNumber (n : number).

(** A GET request: the URL and the [params] object handed to axios. *)
Record get_request := {
  get_url : jsstring;
  get_params : gmap string param
}.

(** [api.get(url, { params })] *)
Definition get (url : jsstring) (params : gmap string param) : get_request :=
  {| get_url := baseURL ++ url; get_params := params |}.

(** An async function whose body may throw before it awaits a request. *)
Inductive call (A : Type) :=
| ThrewURIError
| Sent (rq : get_request) (out : settled A).
Arguments ThrewURIError {A}.
Arguments Sent {A} rq out.

(** [lookupWord(word, fuzzy)] *)
Definition lookupWord (net : get_request -> settled LookupResponse.t)
    (word : jsstring) (fuzzy : option bool) : call LookupResponse.t :=
  let fuzzy := default true fuzzy in
  match encodeURIComponent word with
  | None => ThrewURIError
  | Some w =>
      let rq := get (js "/dictionary/lookup/" ++ w)
                    (<["fuzzy" := PBool fuzzy]> ∅) in
      Sent rq (net rq)
  end.

(** [getSuggestions(query, limit)] *)
Definition getSuggestions (net : get_request -> settled SuggestResponse.t)
    (query : jsstring) (limit : option number) : call SuggestResponse.t :=
  let limit := default num_10 limit in
  let rq := get (js "/dictionary/suggest")
                (<["q" := PString query]> (<["limit" := PNumber limit]> ∅)) in
  Sent rq (net rq).

(** [searchByRussian(word)] *)
Definition searchByRussian (net : get_request -> settled LookupResponse.t)
    (word : jsstring) : call LookupResponse.t :=
  let rq := get (js "/dictionary/search/russian")
                (<["word" := PString word]> ∅) in
  Sent rq (net rq).

End api.

(** ** src/composables/useTranslator.ts *)

Module useTranslator.
Import types.

(** The refs of the composable. *)
Record state := {
  inputText : jsstring;
  direction : TranslationDirection;
  isLoading : bool;
  error : option jsstring;
  result : option TranslateResponse;
  useLlm : bool
}.

(** The values the refs are created with. *)
Definition init : state :=
  {| inputText := js ""; direction := tab_rus; isLoading := false;
     error := None; result := None; useLlm := true |}.

Definition set_inputText (v : jsstring) (s : state) : state :=
  {| inputText := v; direction := direction s; isLoading := isLoading s;
     error := error s; result := result s; useLlm := useLlm s |}.
Definition set_direction (v : TranslationDirection) (s : state) : state :=
  {| inputText := inputText s; direction := v; isLoading := isLoading s;
     error := error s; result := result s; useLlm := useLlm s |}.
Definition set_isLoading (v : bool) (s : state) : state :=
  {| inputText := inputText s; direction := direction s; isLoading := v;
     error := error s; result := result s; useLlm := useLlm s |}.
Definition set_error (v : option jsstring) (s : state) : state :=
  {| inputText := inputText s; direction := direction s;
     isLoading := isLoading s; error := v; result := result s;
     useLlm := useLlm s |}.
Definition set_result (v : option TranslateResponse) (s : state) : state :=
  {| inputText := inputText s; direction := direction s;
     isLoading := isLoading s; error := error s; result := v;
     useLlm := useLlm s |}.
Definition set_useLlm (v : bool) (s : state) : state :=
  {| inputText := inputText s; direction := direction s;
     isLoading := isLoading s; error := error s; result := result s;
     useLlm := v |}.

Definition sourceLang (s : state) : jsstring :=
  match direction s with
  | tab_rus => js "Табасаранский"
  | rus_tab => js "Русский"
  end.

Definition targetLang (s : state) : jsstring :=
  match direction s with
  | tab_rus => js "Русский"
  | rus_tab => js "Табасаранский"
  end.

Definition hasResult (s : state) : bool :=
  match result s with Some _ => true | None => false end.

(** [result.value?.words.filter(w => w.is_unknown) ?? []] *)
Definition unknownWords (s : state) : list WordTranslation :=
  match result s with
  | Some r => List.filter is_unknown (words r)
  | None => []
  end.

(** What [translate] does once the awaited call has settled:
    the rest of the [try], the [catch] and the [finally]. *)
Definition translate_settle (out : api.settled TranslateResponse)
    (s : state) : state :=
  let s :=
    match out with
    | api.Fulfilled r => set_result (Some r) s
    | api.Rejected e =>
        let s := set_error
          (Some (or_else (or_opt (api.response_data_detail e) (api.message e))
                         (js "Ошибка перевода"))) s in
        set_result None s
    end in
  set_isLoading false s.

(** [translate()], run to completion against [net]: the final state
    and the API requests issued on the way. *)
Definition translate (net : api.network) (s : state)
    : state * list api.http_request :=
  if negb (truthy_string (trim (inputText s))) then
    (set_error (Some (js "Введите текст для перевода")) s, [])
  else
    let s := set_isLoading true s in
    let s := set_error None s in
    let '(out, calls) :=
      api.translate net (inputText s) (Some (direction s)) (Some (useLlm s)) in
    (translate_settle out s, calls).

Definition toggleDirection (s : state) : state :=
  let s := set_direction
    (match direction s with tab_rus => rus_tab | rus_tab => tab_rus end) s in
  match result s with
  | Some r => set_result None (set_inputText (translated_text r) s)
  | None => s
  end.

Definition clear (s : state) : state :=
  let s := set_inputText (js "") s in
  let s := set_result None s in
  set_error None s.

(** What the user can still do while a request is in flight: the
    textarea and the translate button are disabled by [isLoading], the
    direction toggle, the LLM checkbox and the clear button are not. *)
Inductive action :=
| Toggle
| Clear
| SetUseLlm (b : bool).

Definition act (a : action) (s : state) : state :=
  match a with
  | Toggle => toggleDirection s
  | Clear => clear s
  | SetUseLlm b => set_useLlm b s
  end.

(** [translate()] with the actions [acts] taking place between the
    moment the request is sent and the moment it settles. *)
Definition translate_interleaved (net : api.network) (acts : list action)
    (s : state) : state * list api.http_request :=
  if negb (truthy_string (trim (inputText s))) then
    (set_error (Some (js "Введите текст для перевода")) s, [])
  else
    let s := set_isLoading true s in
    let s := set_error None s in
    let '(out, calls) :=
      api.translate net (inputText s) (Some (direction s)) (Some (useLlm s)) in
    let s := fold_left (fun s a => act a s) acts s in
    (translate_settle out s, calls).

End useTranslator.

(** ** src/components/WordCard.vue *)

Module WordCard.
Import types.

(** The coloured bar of the confidence row: its [:class] array and the
    number interpolated into [width: ...%]. *)
Record bar := {
  bar_class : list jsstring;
  bar_width_percent : number
}.

(** The conditional entry of the [:class] array. *)
Definition barColor (word : WordTranslation) : jsstring :=
  if num_ge (confidence word) num_0_8 then js "bg-green-500"
  else if num_ge (confidence word) num_0_5 then js "bg-yellow-500"
  else js "bg-red-500".

Definition confidenceBar (word : WordTranslation) : bar :=
  {| bar_class := [js "h-full rounded-full transition-all"; barColor word];
     bar_width_percent := num_mul (confidence word) num_100 |}.

End WordCard.

(** ** src/components/TranslatorResult.vue *)

Module TranslatorResult.
Import types.

Record props := {
  result : option TranslateResponse;
  isLoading : bool;
  error : option jsstring
}.

(** The component's own ref, [selectedWord]. *)
Definition selection := option WordTranslation.

Definition selectedWord_init : selection := None.

Definition selectWord (word : WordTranslation) (selectedWord : selection)
    : selection :=
  if negb (is_unknown word) then Some word else selectedWord.

Definition closeWordCard (selectedWord : selection) : selection := None.

(** The text handed to the clipboard, if any. *)
Definition copyToClipboard (p : props) : option jsstring :=
  match result p with
  | Some r => Some (translated_text r)
  | None => None
  end.

Definition getWordClass (word : WordTranslation) : jsstring :=
  if is_unknown word then js "text-red-600 bg-red-50 cursor-help"
  else if num_lt (confidence word) num_0_8 then
    js "text-yellow-700 bg-yellow-50 cursor-pointer hover:bg-yellow-100"
  else js "cursor-pointer hover:bg-primary-50".

(** One [<span>] of the word-by-word breakdown. *)
Record word_span := {
  span_text : jsstring;
  span_class : list jsstring;
  span_title : jsstring
}.

Definition render_word (word : WordTranslation) : word_span :=
  {| span_text := types.word word;
     span_class := [js "px-1.5 py-0.5 rounded text-sm transition";
                    getWordClass word];
     span_title := if is_unknown word then js "Слово не найдено в словаре"
                   else join (js ", ") (translations word) |}.

(** The [v-if] / [v-else-if] / [v-else] chain of the main area. *)
Inductive panel :=
| LoadingPanel
| ErrorPanel (msg : jsstring)
| EmptyPanel
| ResultPanel (text : jsstring) (breakdown : list word_span).

Definition render_panel (p : props) : panel :=
  if isLoading p then LoadingPanel
  else if truthy (error p) then
    ErrorPanel (match error p with Some m => m | None => [] end)
  else match result p with
  | None => EmptyPanel
  | Some r => ResultPanel (translated_text r) (map render_word (words r))
  end.

(** The footer: absent without a result; otherwise it holds the
    not-found counter when that is rendered. *)
Record footer := {
  not_found_counter : option nat
}.

Definition render_footer (p : props) : option footer :=
  match result p with
  | None => None
  | Some r =>
      Some {| not_found_counter :=
                if existsb is_unknown (words r)
                then Some (length (List.filter is_unknown (words r)))
                else None |}
  end.

Record view := {
  main_panel : panel;
  view_footer : option footer;
  word_card : option WordCard.bar
}.

Definition render (p : props) (selectedWord : selection) : view :=
  {| main_panel := render_panel p;
     view_footer := render_footer p;
     word_card := option_map WordCard.confidenceBar selectedWord |}.

(** The events of the component that touch [selectedWord]. *)
Inductive event :=
| ClickWord (word : WordTranslation)
| CloseCard.

Definition handle (ev : event) (selectedWord : selection) : selection :=
  match ev with
  | ClickWord w => selectWord w selectedWord
  | CloseCard => closeWordCard selectedWord
  end.

Definition run (evs : list event) (selectedWord : selection) : selection :=
  fold_left (fun sel ev => handle ev sel) evs selectedWord.

End TranslatorResult.

(** ** src/components/TranslatorInput.vue *)

Module TranslatorInput.

(** The props the logic reads ([placeholder] is display text only). *)
Record props := {
  modelValue : jsstring;
  isLoading : bool
}.

(** [:disabled] of the translate button. *)
Definition translate_disabled (p : props) : bool :=
  isLoading p || negb (truthy_string (trim (modelValue p))).

(** [v-if] of the clear button. *)
Definition clear_shown (p : props) : bool := truthy_string (modelValue p).

(** [:disabled] of the textarea. *)
Definition textarea_disabled (p : props) : bool := isLoading p.

(** What the component emits. *)
Inductive emitted :=
| UpdateModelValue (value : jsstring)
| Translate
| Clear.

(** The fields of a keyboard event that [handleKeydown] reads. *)
Record KeyboardEvent := {
  ctrlKey : bool;
  key : jsstring
}.

(** [handleInput(event)], given [event.target.value]. *)
Definition handleInput (target_value : jsstring) : list emitted :=
  [UpdateModelValue target_value].

Definition handleKeydown (event : KeyboardEvent) : list emitted :=
  if ctrlKey event && bool_decide (key event = js "Enter")
  then [Translate] else [].

(** The DOM events of the template. *)
Inductive dom_event :=
| Input (target_value : jsstring)
| Keydown (event : KeyboardEvent)
| ClickTranslate
| ClickClear.

(** The handlers of the template; a disabled control fires none, a button
    that is not rendered cannot be clicked. *)
Definition dispatch (p : props) (ev : dom_event) : list emitted :=
  match ev with
  | Input v => if textarea_disabled p then [] else handleInput v
  | Keydown e => if textarea_disabled p then [] else handleKeydown e
  | ClickTranslate => if translate_disabled p then [] else [Translate]
  | ClickClear => if clear_shown p then [Clear] else []
  end.

End TranslatorInput.

(** ** src/App.vue *)

Module App.
Import types.

Definition inputProps (s : useTranslator.state) : TranslatorInput.props :=
  {| TranslatorInput.modelValue := useTranslator.inputText s;
     TranslatorInput.isLoading := useTranslator.isLoading s |}.

Definition resultProps (s : useTranslator.state) : TranslatorResult.props :=
  {| TranslatorResult.result := useTranslator.result s;
     TranslatorResult.isLoading := useTranslator.isLoading s;
     TranslatorResult.error := useTranslator.error s |}.

(** [v-if="result?.llm_used"] of the badge. *)
Definition llm_badge_shown (s : useTranslator.state) : bool :=
  match useTranslator.result s with
  | Some r => llm_used r
  | None => false
  end.

(** The listeners of the template: [v-model="inputText"],
    [@translate="translate"], [@clear="clear"]. *)
Definition on_emitted (net : api.network) (e : TranslatorInput.emitted)
    (s : useTranslator.state) : useTranslator.state * list api.http_request :=
  match e with
  | TranslatorInput.UpdateModelValue v => (useTranslator.set_inputText v s, [])
  | TranslatorInput.Translate => useTranslator.translate net s
  | TranslatorInput.Clear => (useTranslator.clear s, [])
  end.

Fixpoint on_all_emitted (net : api.network)
    (es : list TranslatorInput.emitted) (s : useTranslator.state)
    : useTranslator.state * list api.http_request :=
  match es with
  | [] => (s, [])
  | e :: rest =>
      let '(s1, t1) := on_emitted net e s in
      let '(s2, t2) := on_all_emitted net rest s1 in
      (s2, t1 ++ t2)
  end.

(** What the user can do on the page: act on the input panel, press the
    direction toggle ([@toggle="toggleDirection"]), set the checkbox
    ([v-model="useLlm"]). *)
Inductive user_event :=
| OnInput (ev : TranslatorInput.dom_event)
| OnToggle
| OnUseLlm (checked : bool).

(** One user event, the translation it may start run to completion. *)
Definition step (net : api.network) (ev : user_event)
    (s : useTranslator.state) : useTranslator.state * list api.http_request :=
  match ev with
  | OnInput d => on_all_emitted net (TranslatorInput.dispatch (inputProps s) d) s
  | OnToggle => (useTranslator.toggleDirection s, [])
  | OnUseLlm b => (useTranslator.set_useLlm b s, [])
  end.

(** A session: the final state and the requests sent, in order. *)
Fixpoint run (net : api.network) (evs : list user_event)
    (s : useTranslator.state) : useTranslator.state * list api.http_request :=
  match evs with
  | [] => (s, [])
  | ev :: rest =>
      let '(s1, t1) := step net ev s in
      let '(s2, t2) := run net rest s1 in
      (s2, t1 ++ t2)
  end.

End App.


(** ** Backends and sample data *)

(** The request a run of [useTranslator.translate] from [s] sends. *)
Definition request_of (s : useTranslator.state) : api.http_request :=
  api.translate_request (useTranslator.inputText s)
    (Some (useTranslator.direction s)) (Some (useTranslator.useLlm s)).

(** A backend that answers every request with one fixed response. *)
Definition always (r : types.TranslateResponse) : api.network :=
  fun _ => api.Fulfilled r.

(** A backend that is down: every request is rejected. *)
Definition unreachable : api.network :=
  fun _ => api.Rejected {| api.response_data_detail := None;
                           api.message := Some (js "Network Error") |}.

(** Scores the backend hands out. *)
Definition num_0 : number := Eval vm_compute in Prim2SF 0%float.
Definition num_0_3 : number := Eval vm_compute in Prim2SF 0.3%float.
Definition num_0_6 : number := Eval vm_compute in Prim2SF 0.6%float.
Definition num_0_07 : number := Eval vm_compute in Prim2SF 0.07%float.

(** A known word found by a fuzzy match at distance 2 (confidence 0.3). *)
Definition low_band_word : types.WordTranslation :=
  {| types.word := js "гъвелчи"; types.translations := [js "друг"];
     types.part_of_speech := None;
     types.confidence := num_0_3;
     types.is_unknown := false |}.

(** A known word found through normalization (confidence 0.6). *)
Definition medium_band_word : types.WordTranslation :=
  {| types.word := js "салам"; types.translations := [js "привет"];
     types.part_of_speech := None;
     types.confidence := num_0_6;
     types.is_unknown := false |}.

(** A word whose confidence is not a number; JSON cannot carry one. *)
Definition nan_word : types.WordTranslation :=
  {| types.word := js "салам"; types.translations := [js "привет"];
     types.part_of_speech := None;
     types.confidence := S754_nan;
     types.is_unknown := false |}.

(** A word with a confidence whose hundredfold is not a binary64 number. *)
Definition faint_word : types.WordTranslation :=
  {| types.word := js "салам"; types.translations := [js "привет"];
     types.part_of_speech := None;
     types.confidence := num_0_07;
     types.is_unknown := false |}.

(** A word the dictionary does not have. *)
Definition unknown_word : types.WordTranslation :=
  {| types.word := js "xyzzy"; types.translations := [];
     types.part_of_speech := None;
     types.confidence := num_0;
     types.is_unknown := true |}.

(** A dictionary-only response: the LLM did not contribute. *)
Definition dictionary_only_response : types.TranslateResponse :=
  {| types.original_text := js "салам xyzzy";
     types.translated_text := js "привет xyzzy";
     types.words := [medium_band_word; unknown_word];
     types.direction := types.tab_rus;
     types.llm_used := false |}.

(** A state whose input is two blanks, a tab and a line feed, with a
    result on display. *)
Definition blank_input_state : useTranslator.state :=
  {| useTranslator.inputText := [0x20; 0x20; 0x09; 0x0A];
     useTranslator.direction := types.tab_rus;
     useTranslator.isLoading := false;
     useTranslator.error := None;
     useTranslator.result := Some dictionary_only_response;
     useTranslator.useLlm := true |}.

(** A state with a text typed in and nothing translated yet. *)
Definition typed_state : useTranslator.state :=
  useTranslator.set_inputText (js "салам xyzzy") useTranslator.init.

(** A state whose input has blanks around the text. *)
Definition padded_state : useTranslator.state :=
  useTranslator.set_inputText (js "  салам ") useTranslator.init.




(** A word cut in the middle of a surrogate pair. *)
Definition broken_word : jsstring := [0x61; 0xD83D].

(** A dictionary backend that finds nothing. *)
Definition no_entries (rq : api.get_request)
    : api.settled LookupResponse.t :=
  api.Fulfilled {| LookupResponse.query := [];
                   LookupResponse.results := [];
                   LookupResponse.total := num_0 |}.

(** Ctrl+Enter. *)
Definition ctrl_enter : TranslatorInput.KeyboardEvent :=
  {| TranslatorInput.ctrlKey := true; TranslatorInput.key := js "Enter" |}.

(** ** Specification-side notions *)

(** The words of a list marked [is_unknown], counted one by one. *)
Fixpoint count_unknown (ws : list types.WordTranslation) : nat :=
  match ws with
  | [] => 0%nat
  | w :: r => ((if types.is_unknown w then 1 else 0) + count_unknown r)%nat
  end.

(** The invariant of the detail modal: nothing selected, or a known word. *)
Definition known_or_null (selectedWord : TranslatorResult.selection) : Prop :=
  match selectedWord with
  | None => True
  | Some w => types.is_unknown w = false
  end.






Arguments js : simpl never.
Arguments trim : simpl never.
Arguments num_lt : simpl never.
Arguments num_ge : simpl never.
Arguments num_mul : simpl never.

(** * Properties *)

Import types.
Local Open Scope Z_scope.

(** ** Numbers: comparisons against the band thresholds *)

Lemma SFcompare_defined (a b : number) :
  is_NaN a = false -> is_NaN b = false -> SFcompare a b <> None.
Proof.
  destruct a as [sa|sa| |sa ma ea], b as [sb|sb| |sb mb eb];
    cbn; intros Ha Hb; try discriminate.
Qed.

(** Away from NaN, [>=] is the negation of [<]. *)
Lemma num_ge_negb_lt (a b : number) :
  is_NaN a = false -> is_NaN b = false -> num_ge a b = negb (num_lt a b).
Proof.
  intros Ha Hb. unfold num_ge, num_lt.
  pose proof (SFcompare_defined a b Ha Hb) as Hd.
  destruct (SFcompare a b) as [[ | | ]|]; cbn; congruence.
Qed.

Lemma num_lt_NaN_l (b : number) : num_lt S754_nan b = false.
Proof. reflexivity. Qed.

Lemma num_ge_NaN_l (b : number) : num_ge S754_nan b = false.
Proof. reflexivity. Qed.

Lemma compare_cont_Lt (p q : positive) :
  match Pos.compare_cont Eq p q with Lt => true | _ => false end = true
  <-> (p < q)%positive.
Proof.
  unfold Pos.lt, Pos.compare.
  destruct (Pos.compare_cont Eq p q); split; congruence.
Qed.

(** Both thresholds have exponent -53, so the order of their mantissas
    decides every comparison they appear in. *)
Lemma num_lt_0_5_lt_0_8 (c : number) :
  num_lt c num_0_5 = true -> num_lt c num_0_8 = true.
Proof.
  unfold num_lt, num_0_5, num_0_8.
  destruct c as [s|s| |s m e]; cbn [SFcompare]; trivial.
  destruct s; trivial.
  destruct (e ?= -53); trivial.
  intros Hm. apply compare_cont_Lt in Hm. apply compare_cont_Lt.
  apply Pos.lt_trans with (1 := Hm). reflexivity.
Qed.

Lemma num_ge_0_8_ge_0_5 (c : number) :
  num_ge c num_0_8 = true -> num_ge c num_0_5 = true.
Proof.
  intros H.
  destruct (is_NaN c) eqn:Hn.
  - destruct c; try discriminate.
  - rewrite num_ge_negb_lt in * by easy.
    destruct (num_lt c num_0_5) eqn:H5; [|reflexivity].
    apply num_lt_0_5_lt_0_8 in H5. rewrite H5 in H. discriminate.
Qed.

(** ** Numbers: the literals 0.8 and 0.5 against the fractions 4/5 and 1/2 *)

Lemma digits2_pos_bounds (m : positive) :
  2 ^ (Z.pos (digits2_pos m) - 1) <= Z.pos m < 2 ^ Z.pos (digits2_pos m).
Proof.
  induction m as [m IH|m IH|]; cbn [digits2_pos].
  3: { cbn. lia. }
  all: rewrite Pos2Z.inj_succ, Z.pow_succ_r by lia;
    replace (Z.succ (Z.pos (digits2_pos m)) - 1)
      with (Z.succ (Z.pos (digits2_pos m) - 1)) by lia;
    rewrite Z.pow_succ_r by lia;
    revert IH;
    generalize (2 ^ (Z.pos (digits2_pos m) - 1))
               (2 ^ Z.pos (digits2_pos m));
    intros a b IH.
  - rewrite Pos2Z.inj_xI. lia.
  - rewrite Pos2Z.inj_xO. lia.
Qed.

(** What validity says of a finite binary64 number: at most 53 digits,
    exactly 53 above the least exponent. *)
Lemma binary64_finite_shape (s : bool) (m : positive) (e : Z) :
  is_binary64 (S754_finite s m e) = true ->
  -1074 <= e /\ Z.pos m < 2 ^ 53 /\ (-1074 < e -> 2 ^ 52 <= Z.pos m).
Proof.
  unfold is_binary64, valid_binary, SpecFloat.valid_binary, bounded,
    canonical_mantissa, fexp, SpecFloat.emin.
  change (3 - emax - prec) with (-1074). change prec with 53.
  intros H. apply andb_true_iff in H. destruct H as (H & _).
  apply Z.eqb_eq in H.
  pose proof (digits2_pos_bounds m) as (Hlo & Hhi).
  set (d := Z.pos (digits2_pos m)) in *.
  assert (Hd0 : 0 < d) by (subst d; lia).
  assert (Hd : d <= 53 /\ -1074 <= e /\ (-1074 < e -> d = 53)) by lia.
  destruct Hd as (Hd & He & Hn).
  split; [exact He|]. split.
  - apply Z.lt_le_trans with (1 := Hhi).
    apply Z.pow_le_mono_r; lia.
  - intros He'. rewrite (Hn He') in Hlo. exact Hlo.
Qed.

Lemma value_ge_negb_lt (x : number) (p q : Z) :
  value_ge x p q = negb (value_lt x p q) && negb (is_NaN x).
Proof.
  unfold value_ge, value_lt.
  destruct x as [s|s| |s m e]; cbn [compare_with_ratio is_NaN].
  - destruct (0 ?= p); reflexivity.
  - destruct s; reflexivity.
  - reflexivity.
  - destruct (_ ?= _); reflexivity.
Qed.

Lemma num_ge_negb_lt_NaN (x t : number) :
  is_NaN t = false ->
  num_ge x t = negb (num_lt x t) && negb (is_NaN x).
Proof.
  intros Ht. destruct (is_NaN x) eqn:Hx.
  - destruct x; try discriminate. reflexivity.
  - rewrite (num_ge_negb_lt x t Hx Ht). cbn. now rewrite andb_true_r.
Qed.

(** A threshold literal [K * 2^-53] that is the binary64 rounding (up, or
    exact) of a fraction [p/q] between 1/2 and 1: comparing a binary64
    number with the literal is comparing its value with the fraction. *)
Section Threshold.

Variable K : positive.
Variables p q : Z.
Hypothesis Hratio : 0 < p < q.
Hypothesis Hhalf : q <= 2 * p.
Hypothesis Hcut : forall m : Z, m < Z.pos K <-> q * m < p * 2 ^ 53.

Lemma lt_threshold_exact (x : number) :
  is_binary64 x = true ->
  num_lt x (S754_finite false K (-53)) = value_lt x p q.
Proof using Hratio Hhalf Hcut.
  intros Hv. unfold num_lt, value_lt.
  destruct x as [s|s| |s m e]; cbn [SFcompare compare_with_ratio].
  - destruct (Z.compare_spec 0 p); lia || reflexivity.
  - reflexivity.
  - reflexivity.
  - destruct (binary64_finite_shape s m e Hv) as (He & Hm & Hn).
    assert (Ha : 0 < 2 ^ Z.max e 0) by (apply Z.pow_pos_nonneg; lia).
    assert (Hb : 0 < 2 ^ Z.max (- e) 0) by (apply Z.pow_pos_nonneg; lia).
    destruct s.
    + (* negative: below any positive fraction *)
      assert (Hneg : q * Z.neg m * 2 ^ Z.max e 0 < p * 2 ^ Z.max (- e) 0).
      { apply Z.lt_trans with 0.
        - apply Z.mul_neg_pos; [|exact Ha].
          apply Z.mul_pos_neg; lia.
        - apply Z.mul_pos_pos; lia. }
      apply Z.compare_lt_iff in Hneg. now rewrite Hneg.
    + destruct (Z.compare_spec e (-53)) as [E|E|E].
      * (* same exponent: the mantissas decide *)
        subst e. change (Z.max (-53) 0) with 0.
        change (Z.max (- -53) 0) with 53.
        rewrite Z.pow_0_r, Z.mul_1_r.
        pose proof (Hcut (Z.pos m)) as Hc.
        change (Pos.compare_cont Eq m K) with (Z.pos m ?= Z.pos K).
        destruct (Z.compare_spec (Z.pos m) (Z.pos K));
          destruct (Z.compare_spec (q * Z.pos m) (p * 2 ^ 53));
          reflexivity || (exfalso; lia).
      * (* smaller exponent: below 1/2 *)
        rewrite Z.max_r, Z.max_l by lia. rewrite Z.pow_0_r, Z.mul_1_r.
        assert (Hp : 2 ^ 54 <= 2 ^ (- e)) by (apply Z.pow_le_mono_r; lia).
        assert (Hlt : q * Z.pos m < p * 2 ^ (- e)).
        { apply Z.lt_le_trans with (p * 2 ^ 54).
          - change (2 ^ 54) with (2 * 2 ^ 53). nia.
          - apply Z.mul_le_mono_nonneg_l; lia. }
        apply Z.compare_lt_iff in Hlt. now rewrite Hlt.
      * (* larger exponent: at least 1 *)
        assert (Hm52 : 2 ^ 52 <= Z.pos m) by (apply Hn; lia).
        assert (Hge : p * 2 ^ Z.max (- e) 0 <= q * Z.pos m * 2 ^ Z.max e 0).
        { assert (Hp : 2 ^ Z.max (- e) 0 <= 2 ^ 52)
            by (apply Z.pow_le_mono_r; lia).
          apply Z.le_trans with (q * 2 ^ 52).
          - apply Z.le_trans with (p * 2 ^ 52).
            + apply Z.mul_le_mono_nonneg_l; lia.
            + apply Z.mul_le_mono_nonneg_r; [apply Z.pow_nonneg|]; lia.
          - apply Z.le_trans with (q * Z.pos m * 1).
            + rewrite Z.mul_1_r. apply Z.mul_le_mono_nonneg_l; lia.
            + apply Z.mul_le_mono_nonneg_l; [|lia].
              apply Z.mul_nonneg_nonneg; lia. }
        apply Z.compare_ge_iff in Hge.
        destruct (q * Z.pos m * 2 ^ Z.max e 0 ?= p * 2 ^ Z.max (- e) 0);
          reflexivity || (exfalso; now apply Hge).
Qed.

Lemma ge_threshold_exact (x : number) :
  is_binary64 x = true ->
  num_ge x (S754_finite false K (-53)) = value_ge x p q.
Proof using Hratio Hhalf Hcut.
  intros Hv.
  rewrite num_ge_negb_lt_NaN by reflexivity.
  now rewrite value_ge_negb_lt, lt_threshold_exact.
Qed.

End Threshold.

(** The literal [0.8] is the least binary64 number that is at least 4/5. *)
Lemma num_0_8_four_fifths (x : number) :
  is_binary64 x = true ->
  num_lt x num_0_8 = value_lt x 4 5 /\ num_ge x num_0_8 = value_ge x 4 5.
Proof.
  intros Hv. unfold num_0_8.
  assert (Hcut : forall m : Z,
             m < Z.pos 7205759403792794 <-> 5 * m < 4 * 2 ^ 53)
    by (intros m; change (2 ^ 53) with 9007199254740992; lia).
  split; [apply lt_threshold_exact | apply ge_threshold_exact];
    trivial; lia.
Qed.

(** The literal [0.5] is 1/2 exactly. *)
Lemma num_0_5_one_half (x : number) :
  is_binary64 x = true ->
  num_lt x num_0_5 = value_lt x 1 2 /\ num_ge x num_0_5 = value_ge x 1 2.
Proof.
  intros Hv. unfold num_0_5.
  assert (Hcut : forall m : Z,
             m < Z.pos 4503599627370496 <-> 2 * m < 1 * 2 ^ 53)
    by (intros m; change (2 ^ 53) with 9007199254740992; lia).
  split; [apply lt_threshold_exact | apply ge_threshold_exact];
    trivial; lia.
Qed.

(** ** Strings: what [trim] leaves *)

Lemma trimStart_nil_iff (s : jsstring) :
  trimStart s = [] <-> forallb is_whitespace s = true.
Proof.
  induction s as [|c r IH]; cbn; [tauto|].
  destruct (is_whitespace c); cbn; [exact IH|].
  split; discriminate.
Qed.

Lemma trimStart_stable (s : jsstring) : trimStart (trimStart s) = trimStart s.
Proof.
  induction s as [|c r IH]; cbn; [reflexivity|].
  destruct (is_whitespace c) eqn:Hc; [exact IH|].
  cbn. now rewrite Hc.
Qed.

Lemma forallb_rev {A} (f : A -> bool) (l : list A) :
  forallb f (rev l) = forallb f l.
Proof.
  induction l as [|x l IH]; cbn; [reflexivity|].
  rewrite forallb_app, IH. cbn. rewrite andb_true_r. apply andb_comm.
Qed.

(** A text is empty after trimming exactly when it is whitespace only. *)
Lemma trim_nil_iff (s : jsstring) :
  trim s = [] <-> forallb is_whitespace s = true.
Proof.
  unfold trim, trimEnd. split.
  - intros H.
    assert (H1 : trimStart (rev (trimStart s)) = []).
    { destruct (trimStart (rev (trimStart s))) as [|x l]; [reflexivity|].
      cbn in H. destruct (rev l); discriminate. }
    apply trimStart_nil_iff in H1. rewrite forallb_rev in H1.
    apply trimStart_nil_iff in H1. rewrite trimStart_stable in H1.
    now apply trimStart_nil_iff.
  - intros H. apply trimStart_nil_iff in H. now rewrite H.
Qed.

Lemma truthy_string_false_iff (s : jsstring) :
  truthy_string s = false <-> s = [].
Proof. destruct s; cbn; split; congruence. Qed.

Lemma truthy_string_true_iff (s : jsstring) :
  truthy_string s = true <-> s <> [].
Proof. destruct s; cbn; split; congruence. Qed.

Lemma or_else_truthy (a : option jsstring) (b : jsstring) :
  truthy_string b = true -> truthy_string (or_else a b) = true.
Proof.
  intros Hb. unfold or_else.
  destruct a as [s|]; [|exact Hb].
  destruct (truthy_string s) eqn:Hs; assumption.
Qed.

(** ** The confidence bar of the word card *)

Lemma bar_colors_distinct :
  js "bg-green-500" <> js "bg-yellow-500" /\
  js "bg-green-500" <> js "bg-red-500" /\
  js "bg-yellow-500" <> js "bg-red-500".
Proof. repeat split; intros H; vm_compute in H; discriminate H. Qed.

(** How [barColor] falls through its two tests. *)
Lemma barColor_cases (w : WordTranslation) :
  (num_ge (confidence w) num_0_8 = true /\
   WordCard.barColor w = js "bg-green-500") \/
  (num_ge (confidence w) num_0_8 = false /\
   num_ge (confidence w) num_0_5 = true /\
   WordCard.barColor w = js "bg-yellow-500") \/
  (num_ge (confidence w) num_0_8 = false /\
   num_ge (confidence w) num_0_5 = false /\
   WordCard.barColor w = js "bg-red-500").
Proof.
  unfold WordCard.barColor.
  destruct (num_ge (confidence w) num_0_8);
    destruct (num_ge (confidence w) num_0_5); tauto.
Qed.

(** The bands of the bar, on the comparisons the template makes. *)
Lemma barColor_bands (w : WordTranslation) :
  is_NaN (confidence w) = false ->
  let c := confidence w in
  (WordCard.barColor w = js "bg-green-500" <-> num_ge c num_0_8 = true) /\
  (WordCard.barColor w = js "bg-yellow-500" <->
     num_ge c num_0_5 = true /\ num_lt c num_0_8 = true) /\
  (WordCard.barColor w = js "bg-red-500" <-> num_lt c num_0_5 = true).
Proof.
  intros Hn c.
  pose proof (num_ge_negb_lt c num_0_8 Hn eq_refl) as H8.
  pose proof (num_ge_negb_lt c num_0_5 Hn eq_refl) as H5.
  pose proof (num_lt_0_5_lt_0_8 c) as Hmono.
  pose proof (barColor_cases w) as Hc. fold c in Hc.
  destruct bar_colors_distinct as (Hgy & Hgr & Hyr).
  revert Hc Hgy Hgr Hyr.
  generalize (WordCard.barColor w) (js "bg-green-500")
             (js "bg-yellow-500") (js "bg-red-500").
  intros col g y r Hc Hgy Hgr Hyr.
  rewrite H8, H5 in *. clear H8 H5.
  destruct (num_lt c num_0_8), (num_lt c num_0_5); cbn in *;
    intuition congruence.
Qed.

(** C1: for every word shown in the detail card whose confidence is a
    number proper (a binary64 value other than NaN, as every confidence in
    [0,1] is), the bar is green iff confidence >= 0.8, yellow iff
    0.5 <= confidence < 0.8 and red iff confidence < 0.5, the comparisons
    being those of the exact values with 4/5 and 1/2; the class list of
    the bar carries that colour and its width is confidence * 100 (the
    binary64 product) percent. *)
Theorem confidence_bar_bands (w : WordTranslation) :
  is_binary64 (confidence w) = true ->
  is_NaN (confidence w) = false ->
  let c := confidence w in
  let b := WordCard.confidenceBar w in
  (WordCard.barColor w = js "bg-green-500" <-> value_ge c 4 5 = true) /\
  (WordCard.barColor w = js "bg-yellow-500" <->
     value_ge c 1 2 = true /\ value_lt c 4 5 = true) /\
  (WordCard.barColor w = js "bg-red-500" <-> value_lt c 1 2 = true) /\
  WordCard.bar_class b =
    [js "h-full rounded-full transition-all"; WordCard.barColor w] /\
  WordCard.bar_width_percent b = num_mul c num_100.
Proof.
  intros Hv Hn c b.
  destruct (num_0_8_four_fifths c Hv) as (L8 & G8).
  destruct (num_0_5_one_half c Hv) as (L5 & G5).
  rewrite <- L8, <- G8, <- L5, <- G5.
  destruct (barColor_bands w Hn) as (Hg & Hy & Hr).
  split; [exact Hg|]. split; [exact Hy|]. split; [exact Hr|].
  split; reflexivity.
Qed.

(** Why NaN is set aside: it fails both tests and lands on red, though it
    is not below 1/2 (nor below anything). *)
Example barColor_NaN :
  WordCard.barColor nan_word = js "bg-red-500" /\
  value_lt (confidence nan_word) 1 2 = false /\
  num_lt (confidence nan_word) num_0_5 = false.
Proof. repeat split. Qed.

(** The width is the binary64 product: 0.6 * 100 is 60, while 0.07 * 100
    is the number next above 7. *)
Example bar_width_examples :
  WordCard.bar_width_percent (WordCard.confidenceBar medium_band_word) =
    Prim2SF 60%float /\
  WordCard.bar_width_percent (WordCard.confidenceBar faint_word) =
    Prim2SF 7.000000000000001%float.
Proof. split; vm_compute; reflexivity. Qed.

Example trim_examples :
  trim (js "  салам, гъвелчи ") = js "салам, гъвелчи" /\
  trim [0x20; 0x09; 0x0A; 0xA0; 0x3000]%N = [] /\
  trim (js "") = [].
Proof. repeat split; vm_compute; reflexivity. Qed.

(** ** The word-by-word breakdown: [getWordClass] *)

(** What [getWordClass] returns, case by case. *)
Lemma getWordClass_cases (w : WordTranslation) :
  TranslatorResult.getWordClass w =
    if is_unknown w then js "text-red-600 bg-red-50 cursor-help"
    else if num_lt (confidence w) num_0_8
    then js "text-yellow-700 bg-yellow-50 cursor-pointer hover:bg-yellow-100"
    else js "cursor-pointer hover:bg-primary-50".
Proof. reflexivity. Qed.

(** The only threshold [getWordClass] consults is 0.8: any two known
    words below it are styled alike. *)
Lemma getWordClass_below_0_8 (w1 w2 : WordTranslation) :
  is_unknown w1 = false -> is_unknown w2 = false ->
  num_lt (confidence w1) num_0_8 = true ->
  num_lt (confidence w2) num_0_8 = true ->
  TranslatorResult.getWordClass w1 = TranslatorResult.getWordClass w2.
Proof.
  intros U1 U2 L1 L2. unfold TranslatorResult.getWordClass.
  now rewrite U1, U2, L1, L2.
Qed.

(** C2, at the failing input: a known word of the low band
    (confidence 0.3 < 0.5) and a known word of the medium band
    (0.5 <= 0.6 < 0.8) get the same class from [getWordClass], the
    yellow one, although the bar of the word card tells them apart. *)
Theorem getWordClass_low_band_styled_as_medium :
  is_unknown low_band_word = false /\
  is_unknown medium_band_word = false /\
  value_lt (confidence low_band_word) 1 2 = true /\
  value_ge (confidence medium_band_word) 1 2 = true /\
  value_lt (confidence medium_band_word) 4 5 = true /\
  TranslatorResult.getWordClass low_band_word =
    js "text-yellow-700 bg-yellow-50 cursor-pointer hover:bg-yellow-100" /\
  TranslatorResult.getWordClass low_band_word =
    TranslatorResult.getWordClass medium_band_word /\
  WordCard.barColor low_band_word = js "bg-red-500" /\
  WordCard.barColor medium_band_word = js "bg-yellow-500".
Proof.
  repeat (split; [vm_compute; reflexivity|]). vm_compute; reflexivity.
Qed.

(** ** The composable: [toggleDirection], [clear] *)

Lemma toggleDirection_direction (s : useTranslator.state) :
  useTranslator.direction (useTranslator.toggleDirection s) =
  match useTranslator.direction s with
  | tab_rus => rus_tab
  | rus_tab => tab_rus
  end.
Proof.
  unfold useTranslator.toggleDirection. cbn.
  destruct (useTranslator.result s); reflexivity.
Qed.

(** C3: from either direction, toggling twice gives the direction back. *)
Theorem toggleDirection_twice_direction (s : useTranslator.state) :
  useTranslator.direction
    (useTranslator.toggleDirection (useTranslator.toggleDirection s)) =
  useTranslator.direction s.
Proof.
  rewrite !toggleDirection_direction.
  destruct (useTranslator.direction s); reflexivity.
Qed.

(** Toggling twice is not the identity on the whole state: with a result
    on display the first toggle moves its text into the input and drops
    the result. *)
Example toggleDirection_twice_input :
  let s := useTranslator.toggleDirection
             (useTranslator.toggleDirection blank_input_state) in
  useTranslator.direction s = useTranslator.direction blank_input_state /\
  useTranslator.inputText s = js "привет xyzzy" /\
  useTranslator.result s = None.
Proof. repeat split. Qed.

(** C10: [clear] empties [inputText], resets [result] and [error] to
    null, and leaves [direction], [useLlm] and [isLoading] as they were. *)
Theorem clear_resets_exactly (s : useTranslator.state) :
  let s' := useTranslator.clear s in
  useTranslator.inputText s' = [] /\
  useTranslator.result s' = None /\
  useTranslator.error s' = None /\
  useTranslator.direction s' = useTranslator.direction s /\
  useTranslator.useLlm s' = useTranslator.useLlm s /\
  useTranslator.isLoading s' = useTranslator.isLoading s.
Proof. repeat split. Qed.

(** ** The API client *)

Lemma direction_string_enum (d : TranslationDirection) :
  direction_string d = js "tab-rus" \/ direction_string d = js "rus-tab".
Proof. destruct d; [left|right]; reflexivity. Qed.

Lemma translate_request_fields (text : jsstring)
    (d : option TranslationDirection) (u : option bool) :
  api.http_body (api.translate_request text d u) =
    <["text" := api.JString text]>
      (<["direction" := api.JString (direction_string (default tab_rus d))]>
         (<["use_llm" := api.JBool (default true u)]> ∅)).
Proof. reflexivity. Qed.

(** C5: the request [translate] issues is one POST to /api/translate
    whose body has exactly the keys text, direction and use_llm; direction
    is one of the two enum strings and use_llm a boolean, true when the
    argument is omitted. *)
Theorem translate_post_body (net : api.network) (text : jsstring)
    (d : option TranslationDirection) (u : option bool) :
  exists rq,
    snd (api.translate net text d u) = [rq] /\
    api.http_method_of rq = api.POST /\
    api.http_url rq = js "/api/translate" /\
    dom (api.http_body rq) = {[ "text"; "direction"; "use_llm" ]} /\
    api.http_body rq !! "text" = Some (api.JString text) /\
    (exists d' : TranslationDirection,
        d' = default tab_rus d /\
        api.http_body rq !! "direction" =
          Some (api.JString (direction_string d'))) /\
    (exists b : bool,
        b = default true u /\
        api.http_body rq !! "use_llm" = Some (api.JBool b)).
Proof.
  exists (api.translate_request text d u).
  rewrite translate_request_fields.
  split; [reflexivity|]. split; [reflexivity|]. split; [reflexivity|].
  split; [|split; [|split]].
  - rewrite !dom_insert_L, dom_empty_L. set_solver.
  - now rewrite lookup_insert_eq.
  - exists (default tab_rus d). split; [reflexivity|].
    rewrite lookup_insert_ne by discriminate. now rewrite lookup_insert_eq.
  - exists (default true u). split; [reflexivity|].
    rewrite !lookup_insert_ne by discriminate. now rewrite lookup_insert_eq.
Qed.

(** ** The composable: [translate] *)

Lemma translate_blank (net : api.network) (s : useTranslator.state) :
  trim (useTranslator.inputText s) = [] ->
  useTranslator.translate net s =
    (useTranslator.set_error (Some (js "Введите текст для перевода")) s, []).
Proof.
  intros H. unfold useTranslator.translate. now rewrite H.
Qed.

Lemma translate_nonblank (net : api.network) (s : useTranslator.state) :
  trim (useTranslator.inputText s) <> [] ->
  useTranslator.translate net s =
    (useTranslator.translate_settle (net (request_of s))
       (useTranslator.set_error None (useTranslator.set_isLoading true s)),
     [request_of s]).
Proof.
  intros H. unfold useTranslator.translate.
  destruct (trim (useTranslator.inputText s)) as [|c r]; [congruence|].
  reflexivity.
Qed.

(** C4: on a text that is empty after trimming, [translate] only sets the
    error message: no request is issued, [isLoading] and the previous
    [result] (and every other ref) stay as they were; such a text is
    whitespace only, and the translate button fed from that state is
    disabled. *)
Theorem translate_rejects_blank (net : api.network)
    (s : useTranslator.state) :
  trim (useTranslator.inputText s) = [] ->
  let s' := fst (useTranslator.translate net s) in
  useTranslator.error s' = Some (js "Введите текст для перевода") /\
  truthy (useTranslator.error s') = true /\
  snd (useTranslator.translate net s) = [] /\
  useTranslator.isLoading s' = useTranslator.isLoading s /\
  useTranslator.result s' = useTranslator.result s /\
  useTranslator.inputText s' = useTranslator.inputText s /\
  useTranslator.direction s' = useTranslator.direction s /\
  useTranslator.useLlm s' = useTranslator.useLlm s /\
  forallb is_whitespace (useTranslator.inputText s) = true /\
  TranslatorInput.translate_disabled (App.inputProps s) = true.
Proof.
  intros H s'. subst s'. rewrite (translate_blank net s H).
  cbn [fst snd].
  split; [reflexivity|]. split; [vm_compute; reflexivity|].
  do 6 (split; [reflexivity|]).
  split; [now apply trim_nil_iff|].
  unfold TranslatorInput.translate_disabled, App.inputProps.
  cbn [TranslatorInput.modelValue TranslatorInput.isLoading].
  rewrite H. apply orb_true_r.
Qed.

Lemma translate_rejects_blank_witness :
  let s' := fst (useTranslator.translate unreachable blank_input_state) in
  useTranslator.error s' = Some (js "Введите текст для перевода") /\
  truthy (useTranslator.error s') = true /\
  snd (useTranslator.translate unreachable blank_input_state) = [] /\
  useTranslator.isLoading s' = useTranslator.isLoading blank_input_state /\
  useTranslator.result s' = useTranslator.result blank_input_state /\
  useTranslator.inputText s' = useTranslator.inputText blank_input_state /\
  useTranslator.direction s' = useTranslator.direction blank_input_state /\
  useTranslator.useLlm s' = useTranslator.useLlm blank_input_state /\
  forallb is_whitespace (useTranslator.inputText blank_input_state) = true /\
  TranslatorInput.translate_disabled (App.inputProps blank_input_state) = true.
Proof.
  apply (translate_rejects_blank unreachable blank_input_state).
  vm_compute. reflexivity.
Defined.

Lemma translate_fulfilled (net : api.network) (s : useTranslator.state)
    (r : TranslateResponse) :
  trim (useTranslator.inputText s) <> [] ->
  net (request_of s) = api.Fulfilled r ->
  let s' := fst (useTranslator.translate net s) in
  useTranslator.isLoading s' = false /\
  useTranslator.result s' = Some r /\
  useTranslator.error s' = None.
Proof.
  intros H Hn s'. subst s'. rewrite (translate_nonblank net s H), Hn.
  repeat split.
Qed.

Lemma translate_rejected (net : api.network) (s : useTranslator.state)
    (e : api.request_error) :
  trim (useTranslator.inputText s) <> [] ->
  net (request_of s) = api.Rejected e ->
  let s' := fst (useTranslator.translate net s) in
  useTranslator.isLoading s' = false /\
  useTranslator.result s' = None /\
  useTranslator.error s' =
    Some (or_else (or_opt (api.response_data_detail e) (api.message e))
                  (js "Ошибка перевода")).
Proof.
  intros H Hn s'. subst s'. rewrite (translate_nonblank net s H), Hn.
  repeat split.
Qed.

Lemma fallback_message_nonempty (a : option jsstring) :
  or_else a (js "Ошибка перевода") <> [].
Proof.
  apply truthy_string_true_iff, or_else_truthy. vm_compute. reflexivity.
Qed.

(** C8: a run of [translate] on non-blank input ends with [isLoading]
    false and with [result] or [error] null; when the request is
    fulfilled, [result] is the response and [error] is null; when it is
    rejected, [error] is a non-empty message and [result] is null. *)
Theorem translate_completed (net : api.network) (s : useTranslator.state) :
  trim (useTranslator.inputText s) <> [] ->
  let s' := fst (useTranslator.translate net s) in
  useTranslator.isLoading s' = false /\
  (useTranslator.result s' = None \/ useTranslator.error s' = None) /\
  snd (useTranslator.translate net s) = [request_of s] /\
  (forall r, net (request_of s) = api.Fulfilled r ->
     useTranslator.result s' = Some r /\ useTranslator.error s' = None) /\
  (forall e, net (request_of s) = api.Rejected e ->
     useTranslator.result s' = None /\
     exists msg, useTranslator.error s' = Some msg /\ msg <> [] /\
       msg = or_else (or_opt (api.response_data_detail e) (api.message e))
                     (js "Ошибка перевода")).
Proof.
  intros H s'.
  assert (Hcalls : snd (useTranslator.translate net s) = [request_of s])
    by (now rewrite (translate_nonblank net s H)).
  destruct (net (request_of s)) as [r|e] eqn:Hn.
  - destruct (translate_fulfilled net s r H Hn) as (HL & HR & HE).
    fold s' in HL, HR, HE.
    split; [exact HL|]. split; [now right|]. split; [exact Hcalls|].
    split; [|discriminate].
    intros r' [= <-]. now split.
  - destruct (translate_rejected net s e H Hn) as (HL & HR & HE).
    fold s' in HL, HR, HE.
    split; [exact HL|]. split; [now left|]. split; [exact Hcalls|].
    split; [discriminate|].
    intros e' [= <-]. split; [exact HR|].
    eexists. split; [exact HE|]. split; [|reflexivity].
    apply fallback_message_nonempty.
Qed.

Lemma confidence_bar_bands_witness :
  let c := confidence medium_band_word in
  let b := WordCard.confidenceBar medium_band_word in
  (WordCard.barColor medium_band_word = js "bg-green-500" <->
     value_ge c 4 5 = true) /\
  (WordCard.barColor medium_band_word = js "bg-yellow-500" <->
     value_ge c 1 2 = true /\ value_lt c 4 5 = true) /\
  (WordCard.barColor medium_band_word = js "bg-red-500" <->
     value_lt c 1 2 = true) /\
  WordCard.bar_class b =
    [js "h-full rounded-full transition-all";
     WordCard.barColor medium_band_word] /\
  WordCard.bar_width_percent b = num_mul c num_100.
Proof.
  apply (confidence_bar_bands medium_band_word).
  - vm_compute. reflexivity.
  - reflexivity.
Defined.

Lemma translate_completed_witness :
  let s' := fst (useTranslator.translate unreachable typed_state) in
  useTranslator.isLoading s' = false /\
  (useTranslator.result s' = None \/ useTranslator.error s' = None) /\
  snd (useTranslator.translate unreachable typed_state) =
    [request_of typed_state] /\
  (forall r, unreachable (request_of typed_state) = api.Fulfilled r ->
     useTranslator.result s' = Some r /\ useTranslator.error s' = None) /\
  (forall e, unreachable (request_of typed_state) = api.Rejected e ->
     useTranslator.result s' = None /\
     exists msg, useTranslator.error s' = Some msg /\ msg <> [] /\
       msg = or_else (or_opt (api.response_data_detail e) (api.message e))
                     (js "Ошибка перевода")).
Proof.
  apply (translate_completed unreachable typed_state).
  vm_compute. discriminate.
Defined.

(** ** The result panel and its footer *)

Lemma length_filter_unknown (ws : list WordTranslation) :
  length (List.filter is_unknown ws) = count_unknown ws.
Proof.
  induction ws as [|w r IH]; cbn; [reflexivity|].
  destruct (is_unknown w); cbn; now rewrite IH.
Qed.

Lemma existsb_unknown_iff (ws : list WordTranslation) :
  existsb is_unknown ws = true <-> exists w, In w ws /\ is_unknown w = true.
Proof. apply existsb_exists. Qed.

(** The error panel is shown exactly when nothing is loading and [error]
    is a non-empty message; the result and its words play no part. *)
Lemma error_panel_iff (p : TranslatorResult.props) (msg : jsstring) :
  TranslatorResult.render_panel p = TranslatorResult.ErrorPanel msg <->
  TranslatorResult.isLoading p = false /\
  TranslatorResult.error p = Some msg /\ msg <> [].
Proof.
  unfold TranslatorResult.render_panel.
  destruct (TranslatorResult.isLoading p).
  { split; [discriminate|]. intros (H & _); discriminate. }
  destruct (TranslatorResult.error p) as [m|]; cbn.
  - destruct m as [|c r]; cbn.
    + destruct (TranslatorResult.result p); split; try discriminate;
        intros (_ & [= <-] & H); congruence.
    + split.
      * intros [= <-]. repeat split. discriminate.
      * intros (_ & [= <-] & _). reflexivity.
  - destruct (TranslatorResult.result p); split; try discriminate;
      intros (_ & H & _); discriminate.
Qed.

Lemma result_panel_shown (p : TranslatorResult.props) (r : TranslateResponse) :
  TranslatorResult.isLoading p = false ->
  truthy (TranslatorResult.error p) = false ->
  TranslatorResult.result p = Some r ->
  TranslatorResult.render_panel p =
    TranslatorResult.ResultPanel (translated_text r)
      (map TranslatorResult.render_word (words r)).
Proof.
  intros HL HE HR. unfold TranslatorResult.render_panel.
  now rewrite HL, HE, HR.
Qed.

(** C6: with a result on display the footer is rendered, and it shows the
    not-found counter iff some word of the result is unknown; the number
    shown is the count of unknown words (the length of [unknownWords]).
    Unknown words never produce the error panel: that panel depends on
    [isLoading] and [error] alone, and a result without error is shown as
    the result panel with every word, unknown or not, in the breakdown. *)
Theorem footer_counts_unknown_words (s : useTranslator.state)
    (selectedWord : TranslatorResult.selection) (r : TranslateResponse) :
  useTranslator.result s = Some r ->
  let v := TranslatorResult.render (App.resultProps s) selectedWord in
  exists f,
    TranslatorResult.view_footer v = Some f /\
    (TranslatorResult.not_found_counter f <> None <->
       exists w, In w (words r) /\ is_unknown w = true) /\
    (forall n, TranslatorResult.not_found_counter f = Some n ->
       n = count_unknown (words r) /\
       n = length (useTranslator.unknownWords s)) /\
    (forall msg,
       TranslatorResult.main_panel v = TranslatorResult.ErrorPanel msg <->
       useTranslator.isLoading s = false /\
       useTranslator.error s = Some msg /\ msg <> []) /\
    (useTranslator.isLoading s = false ->
     truthy (useTranslator.error s) = false ->
     TranslatorResult.main_panel v =
       TranslatorResult.ResultPanel (translated_text r)
         (map TranslatorResult.render_word (words r))).
Proof.
  intros HR v. subst v.
  unfold TranslatorResult.render, TranslatorResult.render_footer.
  cbn [TranslatorResult.view_footer TranslatorResult.main_panel
       App.resultProps TranslatorResult.result].
  rewrite HR. eexists. split; [reflexivity|].
  cbn [TranslatorResult.not_found_counter].
  split; [|split; [|split]].
  - rewrite <- existsb_unknown_iff.
    destruct (existsb is_unknown (words r)); split;
      congruence || discriminate.
  - intros n. unfold useTranslator.unknownWords. rewrite HR.
    destruct (existsb is_unknown (words r)); [|discriminate].
    intros [= <-]. split; [apply length_filter_unknown|reflexivity].
  - intros msg. apply error_panel_iff.
  - intros HL HE. now apply result_panel_shown.
Qed.

(** A state showing a result with one unknown word. *)
Lemma footer_counts_unknown_words_witness :
  let v := TranslatorResult.render (App.resultProps blank_input_state) None in
  exists f,
    TranslatorResult.view_footer v = Some f /\
    (TranslatorResult.not_found_counter f <> None <->
       exists w, In w (words dictionary_only_response) /\
                 is_unknown w = true) /\
    (forall n, TranslatorResult.not_found_counter f = Some n ->
       n = count_unknown (words dictionary_only_response) /\
       n = length (useTranslator.unknownWords blank_input_state)) /\
    (forall msg,
       TranslatorResult.main_panel v = TranslatorResult.ErrorPanel msg <->
       useTranslator.isLoading blank_input_state = false /\
       useTranslator.error blank_input_state = Some msg /\ msg <> []) /\
    (useTranslator.isLoading blank_input_state = false ->
     truthy (useTranslator.error blank_input_state) = false ->
     TranslatorResult.main_panel v =
       TranslatorResult.ResultPanel
         (translated_text dictionary_only_response)
         (map TranslatorResult.render_word
              (words dictionary_only_response))).
Proof.
  apply (footer_counts_unknown_words blank_input_state None
           dictionary_only_response).
  reflexivity.
Defined.

(** ** The LLM badge *)

Lemma llm_badge_iff (s : useTranslator.state) :
  App.llm_badge_shown s = true <->
  exists r, useTranslator.result s = Some r /\ llm_used r = true.
Proof.
  unfold App.llm_badge_shown.
  destruct (useTranslator.result s) as [r|].
  - split; [intros H; now exists r | intros (r' & [= <-] & H); exact H].
  - split; [discriminate | intros (r' & H & _); discriminate].
Qed.

(** C7: the badge is rendered iff a result exists and its [llm_used] is
    true; and a response with [llm_used = false] (the LLM was unavailable
    or not asked) ends up on display as an ordinary result: no error is
    set, the error panel is not shown, the result panel is, and the badge
    is absent. *)
Theorem llm_fallback_is_not_an_error (net : api.network)
    (s : useTranslator.state) (r : TranslateResponse) :
  trim (useTranslator.inputText s) <> [] ->
  net (request_of s) = api.Fulfilled r ->
  llm_used r = false ->
  let s' := fst (useTranslator.translate net s) in
  (forall s0, App.llm_badge_shown s0 = true <->
     exists r0, useTranslator.result s0 = Some r0 /\ llm_used r0 = true) /\
  App.llm_badge_shown s' = false /\
  useTranslator.result s' = Some r /\
  useTranslator.error s' = None /\
  (forall msg, TranslatorResult.render_panel (App.resultProps s') <>
               TranslatorResult.ErrorPanel msg) /\
  TranslatorResult.render_panel (App.resultProps s') =
    TranslatorResult.ResultPanel (translated_text r)
      (map TranslatorResult.render_word (words r)).
Proof.
  intros HB HN HL s'.
  destruct (translate_fulfilled net s r HB HN) as (Hload & Hres & Herr).
  fold s' in Hload, Hres, Herr.
  assert (Hpanel : TranslatorResult.render_panel (App.resultProps s') =
            TranslatorResult.ResultPanel (translated_text r)
              (map TranslatorResult.render_word (words r))).
  { apply result_panel_shown; cbn [App.resultProps
      TranslatorResult.isLoading TranslatorResult.error
      TranslatorResult.result]; [exact Hload | now rewrite Herr | exact Hres]. }
  split; [exact llm_badge_iff|].
  split; [unfold App.llm_badge_shown; now rewrite Hres|].
  split; [exact Hres|]. split; [exact Herr|].
  split; [|exact Hpanel].
  intros msg. rewrite Hpanel. discriminate.
Qed.

Lemma llm_fallback_is_not_an_error_witness :
  let s' := fst (useTranslator.translate (always dictionary_only_response)
                   typed_state) in
  (forall s0, App.llm_badge_shown s0 = true <->
     exists r0, useTranslator.result s0 = Some r0 /\ llm_used r0 = true) /\
  App.llm_badge_shown s' = false /\
  useTranslator.result s' = Some dictionary_only_response /\
  useTranslator.error s' = None /\
  (forall msg, TranslatorResult.render_panel (App.resultProps s') <>
               TranslatorResult.ErrorPanel msg) /\
  TranslatorResult.render_panel (App.resultProps s') =
    TranslatorResult.ResultPanel (translated_text dictionary_only_response)
      (map TranslatorResult.render_word (words dictionary_only_response)).
Proof.
  apply (llm_fallback_is_not_an_error (always dictionary_only_response)
           typed_state dictionary_only_response).
  - vm_compute. discriminate.
  - reflexivity.
  - reflexivity.
Defined.

(** ** The word selection of the result component *)

Lemma selectWord_unknown (w : WordTranslation)
    (sel : TranslatorResult.selection) :
  is_unknown w = true -> TranslatorResult.selectWord w sel = sel.
Proof. intros H. unfold TranslatorResult.selectWord. now rewrite H. Qed.

Lemma selectWord_known (w : WordTranslation)
    (sel : TranslatorResult.selection) :
  is_unknown w = false -> TranslatorResult.selectWord w sel = Some w.
Proof. intros H. unfold TranslatorResult.selectWord. now rewrite H. Qed.

Lemma handle_preserves (ev : TranslatorResult.event)
    (sel : TranslatorResult.selection) :
  known_or_null sel -> known_or_null (TranslatorResult.handle ev sel).
Proof.
  intros H. destruct ev as [w|]; cbn [TranslatorResult.handle].
  - destruct (is_unknown w) eqn:U.
    + now rewrite selectWord_unknown.
    + rewrite selectWord_known by exact U. exact U.
  - exact I.
Qed.

Lemma run_preserves (evs : list TranslatorResult.event) :
  forall sel, known_or_null sel -> known_or_null (TranslatorResult.run evs sel).
Proof.
  induction evs as [|ev evs IH]; intros sel H; [exact H|].
  cbn. apply IH. now apply handle_preserves.
Qed.

(** C9: [selectWord] leaves [selectedWord] alone on an unknown word and
    sets it to the word on a known one; [closeWordCard] resets it to null;
    so each event keeps "null or a known word", and the selection reached
    from the initial null by any sequence of clicks and closes is never an
    unknown word. *)
Theorem selectedWord_never_unknown :
  (forall w sel, is_unknown w = true ->
     TranslatorResult.selectWord w sel = sel) /\
  (forall w sel, is_unknown w = false ->
     TranslatorResult.selectWord w sel = Some w) /\
  (forall sel, TranslatorResult.closeWordCard sel = None) /\
  (forall ev sel, known_or_null sel ->
     known_or_null (TranslatorResult.handle ev sel)) /\
  (forall evs w,
     TranslatorResult.run evs TranslatorResult.selectedWord_init = Some w ->
     is_unknown w = false).
Proof.
  split; [exact selectWord_unknown|].
  split; [exact selectWord_known|].
  split; [reflexivity|].
  split; [exact handle_preserves|].
  intros evs w H.
  pose proof (run_preserves evs TranslatorResult.selectedWord_init I) as K.
  rewrite H in K. exact K.
Qed.

(** ** Actions taken while the request is in flight *)

Lemma act_error_none (a : useTranslator.action) (s : useTranslator.state) :
  useTranslator.error s = None ->
  useTranslator.error (useTranslator.act a s) = None.
Proof.
  intros H. destruct a; cbn [useTranslator.act]; try reflexivity.
  - unfold useTranslator.toggleDirection.
    cbn [useTranslator.set_direction useTranslator.result].
    destruct (useTranslator.result s); exact H.
  - exact H.
Qed.

Lemma acts_error_none (acts : list useTranslator.action) :
  forall s, useTranslator.error s = None ->
  useTranslator.error
    (fold_left (fun s a => useTranslator.act a s) acts s) = None.
Proof.
  induction acts as [|a acts IH]; intros s H; [exact H|].
  cbn [fold_left]. apply IH. now apply act_error_none.
Qed.

Lemma translate_interleaved_nil (net : api.network)
    (s : useTranslator.state) :
  useTranslator.translate_interleaved net [] s = useTranslator.translate net s.
Proof. reflexivity. Qed.

(** The outcome of C8 does not depend on the run being undisturbed: it
    holds whatever toggles, clears and checkbox changes happen while the
    request is pending. *)
Lemma translate_interleaved_completed (net : api.network)
    (acts : list useTranslator.action) (s : useTranslator.state) :
  trim (useTranslator.inputText s) <> [] ->
  let s' := fst (useTranslator.translate_interleaved net acts s) in
  useTranslator.isLoading s' = false /\
  (forall r, net (request_of s) = api.Fulfilled r ->
     useTranslator.result s' = Some r /\ useTranslator.error s' = None) /\
  (forall e, net (request_of s) = api.Rejected e ->
     useTranslator.result s' = None /\
     exists msg, useTranslator.error s' = Some msg /\ msg <> []).
Proof.
  intros H s'. subst s'. unfold useTranslator.translate_interleaved.
  destruct (trim (useTranslator.inputText s)) as [|c t]; [congruence|].
  cbn [truthy_string negb api.translate].
  change (api.translate_request _ _ _) with (request_of s).
  cbn [fst].
  set (s1 := useTranslator.set_error None (useTranslator.set_isLoading true s)).
  pose proof (acts_error_none acts s1 eq_refl) as HE.
  set (s2 := fold_left _ acts s1) in *.
  unfold useTranslator.translate_settle.
  destruct (net (request_of s)) as [r|e].
  - split; [reflexivity|]. split; [|discriminate].
    intros r' [= <-]. split; [reflexivity|exact HE].
  - split; [reflexivity|]. split; [discriminate|].
    intros e' [= <-]. split; [reflexivity|].
    eexists. split; [reflexivity|]. apply fallback_message_nonempty.
Qed.

(** * Further properties of the composable *)

(** ** Direction and language labels *)

(** X1: the two language labels always differ, and [toggleDirection]
    swaps them. *)
Theorem toggleDirection_swaps_languages (s : useTranslator.state) :
  useTranslator.sourceLang (useTranslator.toggleDirection s) =
    useTranslator.targetLang s /\
  useTranslator.targetLang (useTranslator.toggleDirection s) =
    useTranslator.sourceLang s /\
  useTranslator.sourceLang s <> useTranslator.targetLang s.
Proof.
  unfold useTranslator.sourceLang, useTranslator.targetLang.
  rewrite toggleDirection_direction.
  destruct (useTranslator.direction s);
    (split; [reflexivity|]; split; [reflexivity|]);
    intros H; vm_compute in H; discriminate H.
Qed.

(** X2: [toggleDirection] always leaves [result] null and never touches
    [error], [isLoading] or [useLlm]; with a result on display it moves
    the translated text into the input.  Hence a second toggle only flips
    the direction back: three toggles are one, and without a result two
    toggles are none. *)
Theorem toggleDirection_thrice (s : useTranslator.state) :
  let t := useTranslator.toggleDirection in
  useTranslator.result (t s) = None /\
  useTranslator.error (t s) = useTranslator.error s /\
  useTranslator.isLoading (t s) = useTranslator.isLoading s /\
  useTranslator.useLlm (t s) = useTranslator.useLlm s /\
  useTranslator.inputText (t s) =
    match useTranslator.result s with
    | Some r => translated_text r
    | None => useTranslator.inputText s
    end /\
  t (t (t s)) = t s /\
  (useTranslator.result s = None -> t (t s) = s).
Proof.
  destruct s as [txt d l e r u]. cbv zeta.
  unfold useTranslator.toggleDirection.
  cbn [useTranslator.set_direction useTranslator.set_result
       useTranslator.set_inputText useTranslator.result
       useTranslator.direction useTranslator.inputText
       useTranslator.error useTranslator.isLoading useTranslator.useLlm].
  destruct r as [r|], d; repeat split; try discriminate.
Qed.



(** ** What [translate] sends and what it leaves *)

(** X4: on non-blank input [translate] issues exactly one request, a POST
    to /api/translate carrying [inputText] as typed (the trimmed text is
    used for the guard only), the current direction and the current
    [useLlm]. *)
Theorem translate_sends_text_verbatim (net : api.network)
    (s : useTranslator.state) :
  trim (useTranslator.inputText s) <> [] ->
  exists rq,
    snd (useTranslator.translate net s) = [rq] /\
    api.http_method_of rq = api.POST /\
    api.http_url rq = js "/api/translate" /\
    api.http_body rq !! "text" =
      Some (api.JString (useTranslator.inputText s)) /\
    api.http_body rq !! "direction" =
      Some (api.JString (direction_string (useTranslator.direction s))) /\
    api.http_body rq !! "use_llm" =
      Some (api.JBool (useTranslator.useLlm s)).
Proof.
  intros H. exists (request_of s).
  rewrite (translate_nonblank net s H). cbn [snd].
  split; [reflexivity|]. split; [reflexivity|]. split; [reflexivity|].
  unfold request_of. rewrite translate_request_fields. cbn [default].
  split; [|split].
  - now rewrite lookup_insert_eq.
  - rewrite lookup_insert_ne by discriminate. now rewrite lookup_insert_eq.
  - rewrite !lookup_insert_ne by discriminate. now rewrite lookup_insert_eq.
Qed.

Lemma translate_sends_text_verbatim_witness :
  exists rq,
    snd (useTranslator.translate unreachable padded_state) = [rq] /\
    api.http_method_of rq = api.POST /\
    api.http_url rq = js "/api/translate" /\
    api.http_body rq !! "text" =
      Some (api.JString (useTranslator.inputText padded_state)) /\
    api.http_body rq !! "direction" =
      Some (api.JString
              (direction_string (useTranslator.direction padded_state))) /\
    api.http_body rq !! "use_llm" =
      Some (api.JBool (useTranslator.useLlm padded_state)).
Proof.
  apply (translate_sends_text_verbatim unreachable padded_state).
  vm_compute. discriminate.
Defined.

(** X5: [translate] never changes [inputText], [direction] or [useLlm],
    and against the same backend the state it ends in is a fixed point:
    running it again sends the same requests and ends in the same
    state. *)
Theorem translate_settles (net : api.network) (s : useTranslator.state) :
  let s' := fst (useTranslator.translate net s) in
  useTranslator.inputText s' = useTranslator.inputText s /\
  useTranslator.direction s' = useTranslator.direction s /\
  useTranslator.useLlm s' = useTranslator.useLlm s /\
  useTranslator.translate net s' = useTranslator.translate net s.
Proof.
  intros s'. subst s'.
  destruct (trim (useTranslator.inputText s)) as [|c t] eqn:Ht.
  - rewrite (translate_blank net s Ht). cbn [fst].
    split; [reflexivity|]. split; [reflexivity|]. split; [reflexivity|].
    rewrite translate_blank by exact Ht. reflexivity.
  - assert (Hnb : trim (useTranslator.inputText s) <> []) by congruence.
    rewrite (translate_nonblank net s Hnb). cbn [fst].
    set (s1 := useTranslator.translate_settle _ _).
    assert (Hin : useTranslator.inputText s1 = useTranslator.inputText s)
      by (subst s1; unfold useTranslator.translate_settle;
          destruct (net (request_of s)); reflexivity).
    assert (Hd : useTranslator.direction s1 = useTranslator.direction s)
      by (subst s1; unfold useTranslator.translate_settle;
          destruct (net (request_of s)); reflexivity).
    assert (Hu : useTranslator.useLlm s1 = useTranslator.useLlm s)
      by (subst s1; unfold useTranslator.translate_settle;
          destruct (net (request_of s)); reflexivity).
    split; [exact Hin|]. split; [exact Hd|]. split; [exact Hu|].
    assert (Hrq : request_of s1 = request_of s)
      by (unfold request_of; now rewrite Hin, Hd, Hu).
    rewrite translate_nonblank by (rewrite Hin; exact Hnb).
    rewrite Hrq. f_equal.
    subst s1. unfold useTranslator.translate_settle.
    destruct (net (request_of s)); reflexivity.
Qed.



(** X7: a blank input rejected while a result is on display does not
    clear that result: the error panel replaces the text, but the footer
    with its counter, the copy button and the badge still belong to the
    earlier translation. *)
Theorem blank_translate_keeps_stale_result (net : api.network)
    (s : useTranslator.state) (r : TranslateResponse) :
  trim (useTranslator.inputText s) = [] ->
  useTranslator.isLoading s = false ->
  useTranslator.result s = Some r ->
  let s' := fst (useTranslator.translate net s) in
  TranslatorResult.render_panel (App.resultProps s') =
    TranslatorResult.ErrorPanel (js "Введите текст для перевода") /\
  TranslatorResult.render_footer (App.resultProps s') =
    TranslatorResult.render_footer (App.resultProps s) /\
  TranslatorResult.render_footer (App.resultProps s') <> None /\
  TranslatorResult.copyToClipboard (App.resultProps s') =
    Some (translated_text r) /\
  App.llm_badge_shown s' = llm_used r.
Proof.
  intros HB HL HR s'. subst s'. rewrite (translate_blank net s HB).
  cbn [fst].
  unfold TranslatorResult.render_panel, TranslatorResult.render_footer,
    TranslatorResult.copyToClipboard, App.llm_badge_shown, App.resultProps.
  cbn [useTranslator.set_error useTranslator.result useTranslator.error
       useTranslator.isLoading TranslatorResult.result
       TranslatorResult.isLoading TranslatorResult.error].
  rewrite HL, HR.
  split; [vm_compute; reflexivity|]. repeat split. discriminate.
Qed.

Lemma blank_translate_keeps_stale_result_witness :
  let s' := fst (useTranslator.translate unreachable blank_input_state) in
  TranslatorResult.render_panel (App.resultProps s') =
    TranslatorResult.ErrorPanel (js "Введите текст для перевода") /\
  TranslatorResult.render_footer (App.resultProps s') =
    TranslatorResult.render_footer (App.resultProps blank_input_state) /\
  TranslatorResult.render_footer (App.resultProps s') <> None /\
  TranslatorResult.copyToClipboard (App.resultProps s') =
    Some (translated_text dictionary_only_response) /\
  App.llm_badge_shown s' = llm_used dictionary_only_response.
Proof.
  apply (blank_translate_keeps_stale_result unreachable blank_input_state
           dictionary_only_response).
  - vm_compute. reflexivity.
  - reflexivity.
  - reflexivity.
Defined.

(** ** A request in flight *)

Lemma acts_clear_last (acts : list useTranslator.action)
    (s : useTranslator.state) :
  useTranslator.inputText
    (fold_left (fun s a => useTranslator.act a s)
               (acts ++ [useTranslator.Clear]) s) = [].
Proof. rewrite fold_left_app. reflexivity. Qed.

(** X8: toggling the direction, changing the checkbox or clearing while
    the request is pending does not cancel it.  The request sent is the
    one built when [translate] was called; once it settles, [isLoading] is
    false and the response (or a non-empty error message) is stored
    whatever was done meanwhile.  In particular the answer to a query that
    was cleared in the meantime still appears, under an empty input. *)
Theorem in_flight_actions_do_not_cancel (net : api.network)
    (acts : list useTranslator.action) (s : useTranslator.state) :
  trim (useTranslator.inputText s) <> [] ->
  let s' := fst (useTranslator.translate_interleaved net acts s) in
  snd (useTranslator.translate_interleaved net acts s) = [request_of s] /\
  useTranslator.isLoading s' = false /\
  (forall r, net (request_of s) = api.Fulfilled r ->
     useTranslator.result s' = Some r /\ useTranslator.error s' = None) /\
  (forall e, net (request_of s) = api.Rejected e ->
     useTranslator.result s' = None /\
     exists msg, useTranslator.error s' = Some msg /\ msg <> []) /\
  (forall acts0, acts = acts0 ++ [useTranslator.Clear] ->
     useTranslator.inputText s' = []).
Proof.
  intros H s'. subst s'. unfold useTranslator.translate_interleaved.
  destruct (trim (useTranslator.inputText s)) as [|c t]; [congruence|].
  cbn [truthy_string negb api.translate].
  change (api.translate_request _ _ _) with (request_of s).
  cbn [fst snd].
  set (s1 := useTranslator.set_error None (useTranslator.set_isLoading true s)).
  pose proof (acts_error_none acts s1 eq_refl) as HE.
  split; [reflexivity|].
  assert (Hin : forall out,
    useTranslator.inputText (useTranslator.translate_settle out
       (fold_left (fun s a => useTranslator.act a s) acts s1)) =
    useTranslator.inputText
       (fold_left (fun s a => useTranslator.act a s) acts s1))
    by (intros [r|e]; reflexivity).
  set (s2 := fold_left _ acts s1) in *.
  split; [reflexivity|].
  split; [|split].
  - intros r Hr. rewrite Hr. unfold useTranslator.translate_settle.
    split; [reflexivity|exact HE].
  - intros e He. rewrite He. unfold useTranslator.translate_settle.
    split; [reflexivity|].
    eexists. split; [reflexivity|]. apply fallback_message_nonempty.
  - intros acts0 ->. rewrite Hin. subst s2. apply acts_clear_last.
Qed.

Lemma in_flight_actions_do_not_cancel_witness :
  let acts := [useTranslator.Toggle; useTranslator.Clear] in
  let s' := fst (useTranslator.translate_interleaved
                   (always dictionary_only_response) acts typed_state) in
  snd (useTranslator.translate_interleaved
         (always dictionary_only_response) acts typed_state) =
    [request_of typed_state] /\
  useTranslator.isLoading s' = false /\
  (forall r, always dictionary_only_response (request_of typed_state) =
             api.Fulfilled r ->
     useTranslator.result s' = Some r /\ useTranslator.error s' = None) /\
  (forall e, always dictionary_only_response (request_of typed_state) =
             api.Rejected e ->
     useTranslator.result s' = None /\
     exists msg, useTranslator.error s' = Some msg /\ msg <> []) /\
  (forall acts0, acts = acts0 ++ [useTranslator.Clear] ->
     useTranslator.inputText s' = []).
Proof.
  apply (in_flight_actions_do_not_cancel (always dictionary_only_response)
           [useTranslator.Toggle; useTranslator.Clear] typed_state).
  vm_compute. discriminate.
Defined.

(** * Further properties of the result component *)

Lemma word_classes_distinct :
  js "text-red-600 bg-red-50 cursor-help" <>
    js "text-yellow-700 bg-yellow-50 cursor-pointer hover:bg-yellow-100" /\
  js "text-red-600 bg-red-50 cursor-help" <>
    js "cursor-pointer hover:bg-primary-50" /\
  js "text-yellow-700 bg-yellow-50 cursor-pointer hover:bg-yellow-100" <>
    js "cursor-pointer hover:bg-primary-50".
Proof. repeat split; intros H; vm_compute in H; discriminate H. Qed.

(** X9: what [getWordClass] does, on exact values: an unknown word gets
    the red class whatever its confidence; a known word gets the yellow
    class when its confidence is below 4/5 and the plain class otherwise
    (NaN included); the three classes are pairwise distinct. *)
Theorem getWordClass_bands (w : WordTranslation) :
  is_binary64 (confidence w) = true ->
  (is_unknown w = true ->
     TranslatorResult.getWordClass w =
       js "text-red-600 bg-red-50 cursor-help") /\
  (is_unknown w = false -> value_lt (confidence w) 4 5 = true ->
     TranslatorResult.getWordClass w =
       js "text-yellow-700 bg-yellow-50 cursor-pointer hover:bg-yellow-100") /\
  (is_unknown w = false -> value_lt (confidence w) 4 5 = false ->
     TranslatorResult.getWordClass w =
       js "cursor-pointer hover:bg-primary-50") /\
  js "text-red-600 bg-red-50 cursor-help" <>
    js "text-yellow-700 bg-yellow-50 cursor-pointer hover:bg-yellow-100" /\
  js "text-red-600 bg-red-50 cursor-help" <>
    js "cursor-pointer hover:bg-primary-50" /\
  js "text-yellow-700 bg-yellow-50 cursor-pointer hover:bg-yellow-100" <>
    js "cursor-pointer hover:bg-primary-50".
Proof.
  intros Hv. destruct (num_0_8_four_fifths _ Hv) as (L8 & _).
  rewrite <- L8. unfold TranslatorResult.getWordClass.
  split; [intros ->; reflexivity|].
  split; [intros -> ->; reflexivity|].
  split; [intros -> ->; reflexivity|].
  exact word_classes_distinct.
Qed.

Lemma getWordClass_bands_witness :
  (is_unknown low_band_word = true ->
     TranslatorResult.getWordClass low_band_word =
       js "text-red-600 bg-red-50 cursor-help") /\
  (is_unknown low_band_word = false ->
   value_lt (confidence low_band_word) 4 5 = true ->
     TranslatorResult.getWordClass low_band_word =
       js "text-yellow-700 bg-yellow-50 cursor-pointer hover:bg-yellow-100") /\
  (is_unknown low_band_word = false ->
   value_lt (confidence low_band_word) 4 5 = false ->
     TranslatorResult.getWordClass low_band_word =
       js "cursor-pointer hover:bg-primary-50") /\
  js "text-red-600 bg-red-50 cursor-help" <>
    js "text-yellow-700 bg-yellow-50 cursor-pointer hover:bg-yellow-100" /\
  js "text-red-600 bg-red-50 cursor-help" <>
    js "cursor-pointer hover:bg-primary-50" /\
  js "text-yellow-700 bg-yellow-50 cursor-pointer hover:bg-yellow-100" <>
    js "cursor-pointer hover:bg-primary-50".
Proof.
  apply (getWordClass_bands low_band_word). vm_compute. reflexivity.
Defined.

(** X10: on the high band the breakdown and the word card agree: a known
    word whose confidence is a number has the plain class in the
    breakdown exactly when its bar in the card is green. *)
Theorem high_band_consistent (w : WordTranslation) :
  is_unknown w = false ->
  is_NaN (confidence w) = false ->
  (TranslatorResult.getWordClass w = js "cursor-pointer hover:bg-primary-50"
   <-> WordCard.barColor w = js "bg-green-500").
Proof.
  intros HU HN.
  pose proof (num_ge_negb_lt (confidence w) num_0_8 HN eq_refl) as H8.
  destruct word_classes_distinct as (_ & _ & Hyp).
  destruct bar_colors_distinct as (Hgy & Hgr & _).
  unfold TranslatorResult.getWordClass, WordCard.barColor.
  rewrite HU, H8.
  revert Hyp Hgy Hgr.
  generalize (js "cursor-pointer hover:bg-primary-50")
    (js "text-yellow-700 bg-yellow-50 cursor-pointer hover:bg-yellow-100")
    (js "bg-green-500") (js "bg-yellow-500") (js "bg-red-500").
  intros pl ye g y r Hyp Hgy Hgr.
  destruct (num_lt (confidence w) num_0_8); cbn [negb].
  - destruct (num_ge (confidence w) num_0_5); split; congruence.
  - tauto.
Qed.

Lemma high_band_consistent_witness :
  TranslatorResult.getWordClass medium_band_word =
    js "cursor-pointer hover:bg-primary-50"
  <-> WordCard.barColor medium_band_word = js "bg-green-500".
Proof.
  apply (high_band_consistent medium_band_word); reflexivity.
Defined.

(** X11: the words styled as not clickable (the red [cursor-help] class)
    are exactly the ones a click does not select; every other word is
    selected by a click, whatever was selected before. *)
Theorem clickable_iff_selectable (w : WordTranslation)
    (selectedWord : TranslatorResult.selection) :
  (TranslatorResult.getWordClass w = js "text-red-600 bg-red-50 cursor-help"
   <-> TranslatorResult.selectWord w selectedWord = selectedWord /\
       is_unknown w = true) /\
  (TranslatorResult.getWordClass w <> js "text-red-600 bg-red-50 cursor-help"
   <-> TranslatorResult.selectWord w selectedWord = Some w /\
       is_unknown w = false).
Proof.
  destruct word_classes_distinct as (Hry & Hrp & _).
  unfold TranslatorResult.getWordClass, TranslatorResult.selectWord.
  revert Hry Hrp.
  generalize (js "text-red-600 bg-red-50 cursor-help")
    (js "text-yellow-700 bg-yellow-50 cursor-pointer hover:bg-yellow-100")
    (js "cursor-pointer hover:bg-primary-50").
  intros rd ye pl Hry Hrp.
  destruct (is_unknown w); cbn [negb].
  - split; split; try tauto; try congruence.
    intros (_ & H). discriminate.
  - destruct (num_lt (confidence w) num_0_8); split; split;
      try tauto; try congruence; intros (_ & H); discriminate.
Qed.

(** X12: the copy button is there exactly when there is a result
    ([hasResult]), it copies that result's translated text, and whenever
    the result panel is on display the text copied is the text shown. *)
Theorem copy_matches_display (s : useTranslator.state) :
  let p := App.resultProps s in
  (TranslatorResult.render_footer p <> None <->
     useTranslator.hasResult s = true) /\
  (TranslatorResult.copyToClipboard p <> None <->
     useTranslator.hasResult s = true) /\
  TranslatorResult.copyToClipboard p =
    option_map translated_text (useTranslator.result s) /\
  (forall text breakdown,
     TranslatorResult.render_panel p =
       TranslatorResult.ResultPanel text breakdown ->
     TranslatorResult.copyToClipboard p = Some text).
Proof.
  intros p. subst p.
  unfold TranslatorResult.render_footer, TranslatorResult.copyToClipboard,
    TranslatorResult.render_panel, useTranslator.hasResult, App.resultProps.
  cbn [TranslatorResult.result TranslatorResult.isLoading
       TranslatorResult.error].
  destruct (useTranslator.result s) as [r|].
  - split; [split; [reflexivity|discriminate]|].
    split; [split; [reflexivity|discriminate]|].
    split; [reflexivity|].
    intros text bd.
    destruct (useTranslator.isLoading s); [discriminate|].
    destruct (truthy (useTranslator.error s)); [discriminate|].
    intros [= <- _]. reflexivity.
  - split; [split; [congruence|discriminate]|].
    split; [split; [congruence|discriminate]|].
    split; [reflexivity|].
    intros text bd.
    destruct (useTranslator.isLoading s); [discriminate|].
    destruct (truthy (useTranslator.error s)); discriminate.
Qed.



(** * Sessions: sequences of user events on the page *)















(** X17: with a blank input on an idle page the translate button is dead
    (a click changes nothing and sends nothing), yet Ctrl+Enter in the
    textarea still reaches [translate], which answers with the "enter a
    text" error: the shortcut is the only way to that message. *)
Theorem blank_error_only_by_shortcut (net : api.network)
    (s : useTranslator.state) :
  trim (useTranslator.inputText s) = [] ->
  useTranslator.isLoading s = false ->
  App.step net (App.OnInput TranslatorInput.ClickTranslate) s = (s, []) /\
  App.step net (App.OnInput (TranslatorInput.Keydown ctrl_enter)) s =
    (useTranslator.set_error (Some (js "Введите текст для перевода")) s, []).
Proof.
  intros HB HL. unfold App.step, TranslatorInput.dispatch,
    TranslatorInput.translate_disabled, TranslatorInput.textarea_disabled,
    App.inputProps.
  cbn [TranslatorInput.modelValue TranslatorInput.isLoading].
  rewrite HB, HL. cbn [truthy_string negb orb App.on_all_emitted].
  split; [reflexivity|].
  change (TranslatorInput.handleKeydown ctrl_enter)
    with [TranslatorInput.Translate].
  cbn [App.on_all_emitted App.on_emitted].
  rewrite (translate_blank net s HB). reflexivity.
Qed.

Lemma blank_error_only_by_shortcut_witness :
  App.step unreachable (App.OnInput TranslatorInput.ClickTranslate)
    blank_input_state = (blank_input_state, []) /\
  App.step unreachable (App.OnInput (TranslatorInput.Keydown ctrl_enter))
    blank_input_state =
    (useTranslator.set_error (Some (js "Введите текст для перевода"))
       blank_input_state, []).
Proof.
  apply (blank_error_only_by_shortcut unreachable blank_input_state).
  - vm_compute. reflexivity.
  - reflexivity.
Defined.



(** [handleKeydown] asks for a translation on Ctrl+Enter and on
    nothing else: the key must be exactly "Enter" and Ctrl must be held. *)
Lemma handleKeydown_only_ctrl_enter (event : TranslatorInput.KeyboardEvent) :
  (TranslatorInput.handleKeydown event = [TranslatorInput.Translate] <->
     TranslatorInput.ctrlKey event = true /\
     TranslatorInput.key event = js "Enter") /\
  (TranslatorInput.handleKeydown event = [] \/
   TranslatorInput.handleKeydown event = [TranslatorInput.Translate]).
Proof.
  unfold TranslatorInput.handleKeydown.
  destruct (TranslatorInput.ctrlKey event); cbn [andb].
  - destruct (bool_decide_reflect (TranslatorInput.key event = js "Enter"))
      as [E|N].
    + split; [|now right]. split; [now split|reflexivity].
    + split; [|now left]. split; [discriminate|intros (_ & E); contradiction].
  - split; [|now left]. split; [discriminate|intros (E & _); discriminate].
Qed.

(** * Further properties of the API client: the dictionary calls *)

Section UriEncoding.
Local Open Scope N_scope.








End UriEncoding.







(** A Cyrillic word is sent as the escapes of its UTF-8 octets; a word cut
    inside a surrogate pair is refused before anything is sent. *)
Example lookupWord_examples :
  (exists rq out,
     api.lookupWord no_entries (js "чвас") None = api.Sent rq out /\
     api.get_url rq =
       js "/api/dictionary/lookup/%D1%87%D0%B2%D0%B0%D1%81") /\
  api.lookupWord no_entries broken_word None = api.ThrewURIError.
Proof.
  split; [|reflexivity].
  eexists. eexists. split; [reflexivity|]. vm_compute. reflexivity.
Qed.

(** The two calls that pass their text as a query parameter hand it to
    axios as it is, and never throw. *)
Lemma query_calls_pass_text
    (net1 : api.get_request -> api.settled SuggestResponse.t)
    (net2 : api.get_request -> api.settled LookupResponse.t)
    (text : jsstring) (limit : option number) :
  (exists rq, api.getSuggestions net1 text limit = api.Sent rq (net1 rq) /\
     api.get_url rq = js "/api/dictionary/suggest" /\
     api.get_params rq !! "q" = Some (api.PString text) /\
     api.get_params rq !! "limit" =
       Some (api.PNumber (default num_10 limit))) /\
  (exists rq, api.searchByRussian net2 text = api.Sent rq (net2 rq) /\
     api.get_url rq = js "/api/dictionary/search/russian" /\
     api.get_params rq !! "word" = Some (api.PString text)).
Proof.
  unfold api.getSuggestions, api.searchByRussian, api.get.
  split; eexists; (split; [reflexivity|]);
    cbn [api.get_url api.get_params];
    (split; [vm_compute; reflexivity|]).
  - split; [now rewrite lookup_insert_eq|].
    rewrite lookup_insert_ne by discriminate. now rewrite lookup_insert_eq.
  - now rewrite lookup_insert_eq.
Qed.
